(** * Alcovia intervention engine: check-in gate, intervention tickets and
      the student/socket registry.

    Shallow embedding of
      - the Express + socket.io server (server/index.js, src/unnamed/part_002)
        with its database/db.js,
      - the serverless handlers api/daily-checkin.js, api/complete-remedial.js
        and the assign-intervention handler (src/unnamed/part_003),
      - database/schema.sql (src/unnamed/part_001) and the [initDatabase] DDL
        of each deployment.

    The PostgreSQL store is modelled by three tables held as lists of rows in
    insertion order, with the SERIAL sequences and the CHECK constraints of
    the DDL on daily_logs.  Request numbers are JSON integers ([Z]), a field
    that is absent from the body is [None], and all values are taken to fit
    the column types (INTEGER, VARCHAR(n)), so a statement fails only on a
    CHECK constraint.  Timestamps are seconds ([Z]); one request sees one
    value of CURRENT_TIMESTAMP.  Of the console output only console.error in
    the catch blocks is recorded. *)

From Stdlib Require Import ZArith List String Bool Lia.
Import ListNotations.

Open Scope string_scope.
Open Scope list_scope.
Open Scope Z_scope.

(* ================================================================== *)
(** ** Rows of the three relations (database/schema.sql) *)

(** students.status: CHECK (status IN ('active','needs_intervention','remedial','on_track')) *)
Inductive StudentStatus : Type :=
  | active
  | needs_intervention
  | remedial
  | on_track.

(** interventions.status: CHECK (status IN ('pending','assigned','completed','expired')) *)
Inductive InterventionStatus : Type :=
  | pending
  | assigned
  | completed
  | expired.

Record Student : Type := mkStudent {
  s_id : Z;
  s_student_id : string;
  s_name : string;
  s_email : option string;
  s_status : StudentStatus;
  s_created_at : Z;
  s_updated_at : Z
}.

Record DailyLog : Type := mkDailyLog {
  l_id : Z;
  l_student_id : string;
  l_quiz_score : Z;
  l_focus_minutes : Z;
  l_session_date : Z;
  l_passed : bool;
  l_tab_switches : Z;
  l_created_at : Z
}.

Record Intervention : Type := mkIntervention {
  i_id : Z;
  i_student_id : string;
  i_trigger_log_id : option Z;
  i_mentor_email : option string;
  i_remedial_task : option string;
  i_status : InterventionStatus;
  i_assigned_at : option Z;
  i_completed_at : option Z;
  i_created_at : Z;
  i_expires_at : option Z
}.

(** The database: the tables, the three SERIAL sequences, and whether
    daily_logs was created with its CHECK constraints (schema.sql,
    database/db.js and api/index.js declare them; the CREATE TABLE IF NOT
    EXISTS of api/daily-checkin.js does not). *)
Record Database : Type := mkDatabase {
  students : list Student;
  daily_logs : list DailyLog;
  interventions : list Intervention;
  students_id_seq : Z;
  daily_logs_id_seq : Z;
  interventions_id_seq : Z;
  daily_logs_checked : bool
}.

(* ================================================================== *)
(** ** Effects observable outside the store *)

(** Body of the POST sent to the n8n webhook. *)
Record WebhookPayload : Type := mkWebhookPayload {
  w_student_id : string;
  w_student_name : string;
  w_student_email : option string;
  w_quiz_score : Z;
  w_focus_minutes : Z;
  w_tab_switches : Z;
  w_intervention_id : Z;
  w_timestamp : Z
}.

(** Data of the socket.io events. *)
Inductive PushData : Type :=
  | StatusUpdate (status : StudentStatus)
  | InterventionAssigned (status : StudentStatus) (remedial_task : string)
                         (mentor_email : option string).

Inductive Effect : Type :=
  | HttpPost (url : string) (payload : WebhookPayload)
  | Emit (socketId : string) (event : string) (data : PushData)
  | ConsoleError (msg : string).

(** Process environment of one request: the configured webhook address, the
    clock, and whether the POST to the webhook resolves ([true]) or rejects
    ([false]: timeout, network error or non-2xx answer). *)
Record Env : Type := mkEnv {
  N8N_WEBHOOK_URL : option string;
  now : Z;
  gateway_up : bool
}.

(** connectedStudents: a JS Map from student id to socket id, kept in
    insertion order. *)
Definition Registry : Type := list (string * string).

Record World : Type := mkWorld {
  db : Database;
  connectedStudents : Registry;
  trace : list Effect
}.

Definition set_db (w : World) (d : Database) : World :=
  mkWorld d (connectedStudents w) (trace w).

Definition set_connectedStudents (w : World) (m : Registry) : World :=
  mkWorld (db w) m (trace w).

Definition log_effect (w : World) (e : Effect) : World :=
  mkWorld (db w) (connectedStudents w) (trace w ++ [e]).

(* ================================================================== *)
(** ** Requests and responses *)

Record CheckinBody : Type := mkCheckinBody {
  c_student_id : option string;
  c_quiz_score : option Z;
  c_focus_minutes : option Z;
  c_tab_switches : option Z
}.

Record AssignBody : Type := mkAssignBody {
  a_student_id : option string;
  a_remedial_task : option string;
  a_mentor_email : option string;
  a_intervention_id : option Z
}.

Record CompleteBody : Type := mkCompleteBody {
  r_student_id : option string;
  r_intervention_id : option Z
}.

Inductive Response : Type :=
  | Error (code : Z) (error : string)
  | CheckinOk (status : string) (data : DailyLog) (passed : bool)
              (intervention_id : option Z)
  | AssignOk (student_id : string) (remedial_task : string)
  | CompleteOk (status : string).

(** HTTP status of a response. *)
Definition http_code (r : Response) : Z :=
  match r with
  | Error code _ => code
  | _ => 200
  end.

(** JS truthiness of a string. *)
Definition truthy (s : string) : bool := negb (String.eqb s "").

(** [!x] for a field that is absent, null or a string. *)
Definition missing (x : option string) : bool :=
  match x with
  | Some s => negb (truthy s)
  | None => true
  end.

(* ================================================================== *)
(** ** Handler monad: state passing over [World] with exceptions.
       A thrown exception keeps the writes already made (every statement
       runs in its own autocommit transaction). *)

Inductive Outcome (A : Type) : Type :=
  | Done (a : A)
  | Thrown (msg : string).
Arguments Done {A} a.
Arguments Thrown {A} msg.

Definition M (A : Type) : Type := World -> Outcome A * World.

Definition ret {A : Type} (a : A) : M A := fun w => (Done a, w).

Definition bind {A B : Type} (c : M A) (k : A -> M B) : M B :=
  fun w =>
    match c w with
    | (Done a, w') => k a w'
    | (Thrown msg, w') => (Thrown msg, w')
    end.

(** A computation that cannot throw: the body of a catch block, and a whole
    handler once its try/catch is closed. *)
Definition Total (A : Type) : Type := World -> A * World.

Definition try_catch {A : Type} (c : M A) (h : string -> Total A) : Total A :=
  fun w =>
    match c w with
    | (Done a, w') => (a, w')
    | (Thrown msg, w') => h msg w'
    end.

Definition lift {A : Type} (t : Total A) : M A :=
  fun w => let (a, w') := t w in (Done a, w').

Definition console_error (msg : string) : Total unit :=
  fun w => (tt, log_effect w (ConsoleError msg)).

(** Run a statement of the SQL layer against the store. *)
Definition query {A : Type} (q : Database -> Outcome A * Database) : M A :=
  fun w => let (r, d) := q (db w) in (r, set_db w d).

Declare Scope handler_scope.
Delimit Scope handler_scope with handler.
Notation "x <- c ;; k" := (bind c (fun x => k))
  (at level 61, c at next level, right associativity) : handler_scope.
Notation "c ;;; k" := (bind c (fun _ => k))
  (at level 61, right associativity) : handler_scope.
Open Scope handler_scope.


(* ================================================================== *)
(** ** The SQL statements of the handlers *)

Module Sql.

(** INTERVAL '12 hours', in seconds. *)
Definition twelve_hours : Z := 12 * 3600.

(** CURRENT_DATE: the day number of the clock. *)
Definition current_date (now : Z) : Z := now / 86400.

(** SELECT * FROM students WHERE student_id = $1 *)
Definition select_student (student_id : string) (d : Database)
  : Outcome (list Student) * Database :=
  (Done (filter (fun s => String.eqb (s_student_id s) student_id) (students d)), d).

Definition set_student_status (st : StudentStatus) (now : Z) (s : Student)
  : Student :=
  mkStudent (s_id s) (s_student_id s) (s_name s) (s_email s) st
            (s_created_at s) now.

(** UPDATE students SET status = st, updated_at = CURRENT_TIMESTAMP
    WHERE student_id = $1 *)
Definition update_student_status (st : StudentStatus) (now : Z)
    (student_id : string) (d : Database) : Outcome unit * Database :=
  (Done tt,
   mkDatabase
     (map (fun s => if String.eqb (s_student_id s) student_id
                    then set_student_status st now s else s) (students d))
     (daily_logs d) (interventions d)
     (students_id_seq d) (daily_logs_id_seq d) (interventions_id_seq d)
     (daily_logs_checked d)).

(** CHECK (quiz_score >= 0 AND quiz_score <= 10), CHECK (focus_minutes >= 0) *)
Definition daily_logs_check (quiz_score focus_minutes : Z) : bool :=
  (0 <=? quiz_score) && (quiz_score <=? 10) && (0 <=? focus_minutes).

(** INSERT INTO daily_logs (student_id, quiz_score, focus_minutes,
      tab_switches, passed, session_date)
    VALUES ($1, $2, $3, $4, $5, CURRENT_DATE) RETURNING *
    The id is drawn from the sequence before the constraints are checked,
    so a rejected row still consumes it. *)
Definition insert_daily_log (now : Z) (student_id : string)
    (quiz_score focus_minutes tab_switches : Z) (passed : bool)
    (d : Database) : Outcome DailyLog * Database :=
  let row := mkDailyLog (daily_logs_id_seq d) student_id quiz_score
               focus_minutes (current_date now) passed tab_switches now in
  if daily_logs_checked d && negb (daily_logs_check quiz_score focus_minutes)
  then (Thrown "violates check constraint",
        mkDatabase (students d) (daily_logs d) (interventions d)
          (students_id_seq d) (daily_logs_id_seq d + 1)
          (interventions_id_seq d) (daily_logs_checked d))
  else (Done row,
        mkDatabase (students d) (daily_logs d ++ [row]) (interventions d)
          (students_id_seq d) (daily_logs_id_seq d + 1)
          (interventions_id_seq d) (daily_logs_checked d)).

(** INSERT INTO interventions (student_id, trigger_log_id, status, expires_at)
    VALUES ($1, $2, 'pending', CURRENT_TIMESTAMP + INTERVAL '12 hours')
    RETURNING * *)
Definition insert_intervention (now : Z) (student_id : string)
    (trigger_log_id : Z) (d : Database) : Outcome Intervention * Database :=
  let row := mkIntervention (interventions_id_seq d) student_id
               (Some trigger_log_id) None None pending None None now
               (Some (now + twelve_hours)) in
  (Done row,
   mkDatabase (students d) (daily_logs d) (interventions d ++ [row])
     (students_id_seq d) (daily_logs_id_seq d)
     (interventions_id_seq d + 1) (daily_logs_checked d)).

(** WHERE student_id = $a AND id = $b; a NULL $b matches no row. *)
Definition intervention_matches (student_id : string)
    (intervention_id : option Z) (i : Intervention) : bool :=
  match intervention_id with
  | Some id => String.eqb (i_student_id i) student_id && (i_id i =? id)
  | None => false
  end.

Definition set_assigned (remedial_task : string) (mentor_email : option string)
    (now : Z) (i : Intervention) : Intervention :=
  mkIntervention (i_id i) (i_student_id i) (i_trigger_log_id i)
    mentor_email (Some remedial_task) assigned (Some now)
    (i_completed_at i) (i_created_at i) (i_expires_at i).

(** UPDATE interventions
    SET status = 'assigned', remedial_task = $1, mentor_email = $2,
        assigned_at = CURRENT_TIMESTAMP
    WHERE student_id = $3 AND id = $4 *)
Definition update_intervention_assigned (now : Z) (remedial_task : string)
    (mentor_email : option string) (student_id : string)
    (intervention_id : option Z) (d : Database) : Outcome unit * Database :=
  (Done tt,
   mkDatabase (students d) (daily_logs d)
     (map (fun i => if intervention_matches student_id intervention_id i
                    then set_assigned remedial_task mentor_email now i
                    else i) (interventions d))
     (students_id_seq d) (daily_logs_id_seq d) (interventions_id_seq d)
     (daily_logs_checked d)).

Definition set_completed (now : Z) (i : Intervention) : Intervention :=
  mkIntervention (i_id i) (i_student_id i) (i_trigger_log_id i)
    (i_mentor_email i) (i_remedial_task i) completed (i_assigned_at i)
    (Some now) (i_created_at i) (i_expires_at i).

(** UPDATE interventions
    SET status = 'completed', completed_at = CURRENT_TIMESTAMP
    WHERE student_id = $1 AND id = $2 *)
Definition update_intervention_completed (now : Z) (student_id : string)
    (intervention_id : option Z) (d : Database) : Outcome unit * Database :=
  (Done tt,
   mkDatabase (students d) (daily_logs d)
     (map (fun i => if intervention_matches student_id intervention_id i
                    then set_completed now i else i) (interventions d))
     (students_id_seq d) (daily_logs_id_seq d) (interventions_id_seq d)
     (daily_logs_checked d)).

(** INSERT INTO students (student_id, name, email, status)
    VALUES ('123', 'Test Student', 'student@test.com', 'active')
    ON CONFLICT (student_id) DO NOTHING
    The id is drawn from the sequence also when the row conflicts. *)
Definition insert_sample_student (now : Z) (d : Database)
    : Outcome unit * Database :=
  let row := mkStudent (students_id_seq d) "123" "Test Student"
               (Some "student@test.com") active now now in
  (Done tt,
   mkDatabase
     (if existsb (fun s => String.eqb (s_student_id s) "123") (students d)
      then students d else students d ++ [row])
     (daily_logs d) (interventions d)
     (students_id_seq d + 1) (daily_logs_id_seq d) (interventions_id_seq d)
     (daily_logs_checked d)).

End Sql.

(* ================================================================== *)
(** ** connectedStudents and the socket.io handlers (server/index.js) *)

Module Registry.

(** Map.prototype.get *)
Fixpoint get (studentId : string) (m : Registry) : option string :=
  match m with
  | [] => None
  | (k, v) :: rest => if String.eqb k studentId then Some v else get studentId rest
  end.

(** Map.prototype.set: an existing key keeps its position, a new key is
    appended. *)
Fixpoint set (studentId socketId : string) (m : Registry) : Registry :=
  match m with
  | [] => [(studentId, socketId)]
  | (k, v) :: rest =>
      if String.eqb k studentId then (k, socketId) :: rest
      else (k, v) :: set studentId socketId rest
  end.

(** Map.prototype.delete *)
Definition delete (studentId : string) (m : Registry) : Registry :=
  filter (fun kv => negb (String.eqb (fst kv) studentId)) m.

(** socket.on('register', (studentId) => connectedStudents.set(studentId, socket.id)) *)
Definition on_register (socket_id studentId : string) : Total unit :=
  fun w => (tt, set_connectedStudents w (set studentId socket_id (connectedStudents w))).

(** for (const [studentId, socketId] of connectedStudents.entries()) {
      if (socketId === socket.id) { connectedStudents.delete(studentId); break; } } *)
Fixpoint disconnect_loop (entries : list (string * string)) (socket_id : string)
    (m : Registry) : Registry :=
  match entries with
  | [] => m
  | (studentId, socketId) :: rest =>
      if String.eqb socketId socket_id then delete studentId m
      else disconnect_loop rest socket_id m
  end.

(** socket.on('disconnect', ...) *)
Definition on_disconnect (socket_id : string) : Total unit :=
  fun w => (tt, set_connectedStudents w
                  (disconnect_loop (connectedStudents w) socket_id
                                   (connectedStudents w))).

(** const notifyStudent = (studentId, event, data) => {
      const socketId = connectedStudents.get(studentId);
      if (socketId) { io.to(socketId).emit(event, data); } } *)
Definition notifyStudent (studentId event : string) (data : PushData)
    : Total unit :=
  fun w =>
    match get studentId (connectedStudents w) with
    | Some socketId =>
        if truthy socketId then (tt, log_effect w (Emit socketId event data))
        else (tt, w)
    | None => (tt, w)
    end.

End Registry.

(* ================================================================== *)
(** ** The gate and the webhook call, shared by both deployments *)

(** const passed = quiz_score > 7 && focus_minutes > 60 && tab_switches < 3; *)
Definition passed (quiz_score focus_minutes tab_switches : Z) : bool :=
  (quiz_score >? 7) && (focus_minutes >? 60) && (tab_switches <? 3).

(** await axios.post(url, payload): the call is recorded, and rejects when the
    gateway does not answer with success. *)
Definition axios_post (env : Env) (url : string) (payload : WebhookPayload)
    : M unit :=
  fun w =>
    let w' := log_effect w (HttpPost url payload) in
    if gateway_up env then (Done tt, w') else (Thrown "Request failed", w').

(** if (process.env.N8N_WEBHOOK_URL) { try { await axios.post(...) }
      catch (webhookError) { console.error(...) } } *)
Definition trigger_webhook (env : Env) (payload : WebhookPayload) : M unit :=
  match N8N_WEBHOOK_URL env with
  | Some url =>
      if truthy url
      then lift (try_catch (axios_post env url payload)
                   (fun msg => console_error msg))
      else ret tt
  | None => ret tt
  end.

Definition default (d : Z) (x : option Z) : Z :=
  match x with
  | Some v => v
  | None => d
  end.

(* ================================================================== *)
(** ** server/index.js (src/unnamed/part_002): the Express routes *)

Module Server.

(** app.post('/api/daily-checkin', ...) *)
Definition daily_checkin (env : Env) (body : CheckinBody) : Total Response :=
  try_catch
    (let tab_switches := default 0 (c_tab_switches body) in
     match c_student_id body, c_quiz_score body, c_focus_minutes body with
     | Some student_id, Some quiz_score, Some focus_minutes =>
       if negb (truthy student_id)
       then ret (Error 400 "Missing required fields: student_id, quiz_score, focus_minutes")
       else if (quiz_score <? 0) || (quiz_score >? 10)
       then ret (Error 400 "quiz_score must be between 0 and 10")
       else if focus_minutes <? 0
       then ret (Error 400 "focus_minutes must be non-negative")
       else
         studentCheck <- query (Sql.select_student student_id) ;;
         match studentCheck with
         | [] => ret (Error 404 "Student not found")
         | student :: _ =>
           let passed := passed quiz_score focus_minutes tab_switches in
           dailyLog <- query (Sql.insert_daily_log (now env) student_id
                                quiz_score focus_minutes tab_switches passed) ;;
           if passed then
             query (Sql.update_student_status on_track (now env) student_id) ;;;
             lift (Registry.notifyStudent student_id "status_update"
                     (StatusUpdate on_track)) ;;;
             ret (CheckinOk "On Track" dailyLog true None)
           else
             query (Sql.update_student_status needs_intervention (now env)
                      student_id) ;;;
             intervention <- query (Sql.insert_intervention (now env)
                                      student_id (l_id dailyLog)) ;;
             trigger_webhook env
               (mkWebhookPayload student_id (s_name student) (s_email student)
                  quiz_score focus_minutes tab_switches (i_id intervention)
                  (now env)) ;;;
             lift (Registry.notifyStudent student_id "status_update"
                     (StatusUpdate needs_intervention)) ;;;
             ret (CheckinOk "Pending Mentor Review" dailyLog false
                    (Some (i_id intervention)))
         end
     | _, _, _ =>
       ret (Error 400 "Missing required fields: student_id, quiz_score, focus_minutes")
     end)
    (fun msg w => (Error 500 "Internal server error",
                   log_effect w (ConsoleError msg))).

(** app.post('/api/assign-intervention', ...) *)
Definition assign_intervention (env : Env) (body : AssignBody)
    : Total Response :=
  try_catch
    (match a_student_id body, a_remedial_task body with
     | Some student_id, Some remedial_task =>
       if negb (truthy student_id) || negb (truthy remedial_task)
       then ret (Error 400 "Missing required fields: student_id, remedial_task")
       else
         query (Sql.update_intervention_assigned (now env) remedial_task
                  (a_mentor_email body) student_id (a_intervention_id body)) ;;;
         query (Sql.update_student_status remedial (now env) student_id) ;;;
         lift (Registry.notifyStudent student_id "intervention_assigned"
                 (InterventionAssigned remedial remedial_task
                    (a_mentor_email body))) ;;;
         ret (AssignOk student_id remedial_task)
     | _, _ =>
       ret (Error 400 "Missing required fields: student_id, remedial_task")
     end)
    (fun msg w => (Error 500 "Internal server error",
                   log_effect w (ConsoleError msg))).

(** app.post('/api/complete-remedial', ...) *)
Definition complete_remedial (env : Env) (body : CompleteBody)
    : Total Response :=
  try_catch
    (match r_student_id body with
     | Some student_id =>
       if negb (truthy student_id)
       then ret (Error 400 "Missing student_id")
       else
         query (Sql.update_intervention_completed (now env) student_id
                  (r_intervention_id body)) ;;;
         query (Sql.update_student_status active (now env) student_id) ;;;
         lift (Registry.notifyStudent student_id "status_update"
                 (StatusUpdate active)) ;;;
         ret (CompleteOk "active")
     | None => ret (Error 400 "Missing student_id")
     end)
    (fun msg w => (Error 500 "Internal server error",
                   log_effect w (ConsoleError msg))).

End Server.

(* ================================================================== *)
(** ** api/*.js: the serverless handlers (POST requests) *)

Module Api.

(** initDatabase of api/daily-checkin.js: the CREATE TABLE IF NOT EXISTS
    statements leave existing tables as they are; the sample student is
    inserted unless present.  Errors are logged and swallowed. *)
Definition initDatabase (env : Env) : Total unit :=
  try_catch (query (Sql.insert_sample_student (now env)))
    (fun msg => console_error msg).

(** api/daily-checkin.js *)
Definition daily_checkin (env : Env) (body : CheckinBody) : Total Response :=
  try_catch
    (lift (initDatabase env) ;;;
     let tab_switches := default 0 (c_tab_switches body) in
     match c_student_id body, c_quiz_score body, c_focus_minutes body with
     | Some student_id, Some quiz_score, Some focus_minutes =>
       if negb (truthy student_id)
       then ret (Error 400 "Missing required fields: student_id, quiz_score, focus_minutes")
       else
         studentCheck <- query (Sql.select_student student_id) ;;
         match studentCheck with
         | [] => ret (Error 404 "Student not found")
         | student :: _ =>
           let passed := passed quiz_score focus_minutes tab_switches in
           dailyLog <- query (Sql.insert_daily_log (now env) student_id
                                quiz_score focus_minutes tab_switches passed) ;;
           if passed then
             query (Sql.update_student_status on_track (now env) student_id) ;;;
             ret (CheckinOk "On Track" dailyLog true None)
           else
             query (Sql.update_student_status needs_intervention (now env)
                      student_id) ;;;
             intervention <- query (Sql.insert_intervention (now env)
                                      student_id (l_id dailyLog)) ;;
             trigger_webhook env
               (mkWebhookPayload student_id (s_name student) (s_email student)
                  quiz_score focus_minutes tab_switches (i_id intervention)
                  (now env)) ;;;
             ret (CheckinOk "Pending Mentor Review" dailyLog false
                    (Some (i_id intervention)))
         end
     | _, _, _ =>
       ret (Error 400 "Missing required fields: student_id, quiz_score, focus_minutes")
     end)
    (fun msg w => (Error 500 "Internal server error",
                   log_effect w (ConsoleError msg))).

(** the serverless assign-intervention handler (src/unnamed/part_003) *)
Definition assign_intervention (env : Env) (body : AssignBody)
    : Total Response :=
  try_catch
    (match a_student_id body, a_remedial_task body with
     | Some student_id, Some remedial_task =>
       if negb (truthy student_id) || negb (truthy remedial_task)
       then ret (Error 400 "Missing required fields: student_id, remedial_task")
       else
         query (Sql.update_intervention_assigned (now env) remedial_task
                  (a_mentor_email body) student_id (a_intervention_id body)) ;;;
         query (Sql.update_student_status remedial (now env) student_id) ;;;
         ret (AssignOk student_id remedial_task)
     | _, _ =>
       ret (Error 400 "Missing required fields: student_id, remedial_task")
     end)
    (fun msg w => (Error 500 "Internal server error",
                   log_effect w (ConsoleError msg))).

(** api/complete-remedial.js *)
Definition complete_remedial (env : Env) (body : CompleteBody)
    : Total Response :=
  try_catch
    (match r_student_id body with
     | Some student_id =>
       if negb (truthy student_id)
       then ret (Error 400 "Missing student_id")
       else
         query (Sql.update_intervention_completed (now env) student_id
                  (r_intervention_id body)) ;;;
         query (Sql.update_student_status active (now env) student_id) ;;;
         ret (CompleteOk "active")
     | None => ret (Error 400 "Missing student_id")
     end)
    (fun msg w => (Error 500 "Internal server error",
                   log_effect w (ConsoleError msg))).

End Api.

(* ================================================================== *)
(** ** The three operations, over either deployment *)

Inductive Deployment : Type :=
  | Express      (* server/index.js *)
  | Serverless.  (* api/*.js *)

Inductive Operation : Type :=
  | SubmitCheckIn (body : CheckinBody)
  | AssignIntervention (body : AssignBody)
  | CompleteRemedial (body : CompleteBody).

Definition handle (dep : Deployment) (env : Env) (op : Operation)
    : Total Response :=
  match dep, op with
  | Express, SubmitCheckIn body => Server.daily_checkin env body
  | Express, AssignIntervention body => Server.assign_intervention env body
  | Express, CompleteRemedial body => Server.complete_remedial env body
  | Serverless, SubmitCheckIn body => Api.daily_checkin env body
  | Serverless, AssignIntervention body => Api.assign_intervention env body
  | Serverless, CompleteRemedial body => Api.complete_remedial env body
  end.

(** A run: each request arrives with its own environment (clock, gateway). *)
Fixpoint run (dep : Deployment) (reqs : list (Env * Operation)) (w : World)
    : World :=
  match reqs with
  | [] => w
  | (env, op) :: rest => run dep rest (snd (handle dep env op w))
  end.

(** The store right after the tables are created; [checked] tells which DDL
    created daily_logs. *)
Definition empty_database (checked : bool) : Database :=
  mkDatabase [] [] [] 1 1 1 checked.

(** The Express server runs initDatabase of database/db.js once at start-up
    (tables, then the sample student); the serverless handlers start on the
    bare store. *)
Definition initial_world (dep : Deployment) (checked : bool) : World :=
  match dep with
  | Express =>
      mkWorld (snd (Sql.insert_sample_student 0 (empty_database checked))) [] []
  | Serverless => mkWorld (empty_database checked) [] []
  end.

Definition reachable (dep : Deployment) (w : World) : Prop :=
  exists checked reqs, w = run dep reqs (initial_world dep checked).

(* ------------------------------------------------------------------ *)
(** *** Observations on the store *)

(** Status of the student row with this identity, if any. *)
Definition student_status (student_id : string) (d : Database)
    : option StudentStatus :=
  match filter (fun s => String.eqb (s_student_id s) student_id) (students d) with
  | s :: _ => Some (s_status s)
  | [] => None
  end.

(** The ticket of this student with this id, if any. *)
Definition find_intervention (student_id : string) (id : Z) (d : Database)
    : option Intervention :=
  find (Sql.intervention_matches student_id (Some id)) (interventions d).

Definition is_open (i : Intervention) : bool :=
  match i_status i with
  | pending | assigned => true
  | completed | expired => false
  end.

(** The tickets of a student that are 'pending' or 'assigned'. *)
Definition open_tickets (student_id : string) (d : Database)
    : list Intervention :=
  filter (fun i => String.eqb (i_student_id i) student_id && is_open i)
         (interventions d).

Definition at_most_one_open (d : Database) : Prop :=
  forall student_id, (List.length (open_tickets student_id d) <= 1)%nat.

(** The verdict carried by a response, if it carries one. *)
Definition verdict (r : Response) : option bool :=
  match r with
  | CheckinOk _ _ p _ => Some p
  | _ => None
  end.

(** The webhook calls recorded in a trace. *)
Definition escalations (tr : list Effect) : list (string * WebhookPayload) :=
  flat_map (fun e => match e with
                     | HttpPost url payload => [(url, payload)]
                     | _ => []
                     end) tr.

(** The events pushed to sockets recorded in a trace. *)
Definition deliveries (tr : list Effect) : list (string * string * PushData) :=
  flat_map (fun e => match e with
                     | Emit socketId event data => [(socketId, event, data)]
                     | _ => []
                     end) tr.

(** The webhook address in use, if one is configured. *)
Definition webhook_url (env : Env) : option string :=
  match N8N_WEBHOOK_URL env with
  | Some url => if truthy url then Some url else None
  | None => None
  end.

(* ------------------------------------------------------------------ *)
(** *** The store after each path of a handler, as the composition of its
        statements *)

(** What a deployment does to the store before it looks at the request. *)
Definition init_db (dep : Deployment) (now : Z) (d : Database) : Database :=
  match dep with
  | Express => d
  | Serverless => snd (Sql.insert_sample_student now d)
  end.

Definition checkin_pass_db (now : Z) (student_id : string)
    (quiz_score focus_minutes tab_switches : Z) (d : Database) : Database :=
  snd (Sql.update_student_status on_track now student_id
         (snd (Sql.insert_daily_log now student_id quiz_score focus_minutes
                 tab_switches true d))).

Definition checkin_fail_db (now : Z) (student_id : string)
    (quiz_score focus_minutes tab_switches : Z) (d : Database) : Database :=
  snd (Sql.insert_intervention now student_id (daily_logs_id_seq d)
         (snd (Sql.update_student_status needs_intervention now student_id
                 (snd (Sql.insert_daily_log now student_id quiz_score
                         focus_minutes tab_switches false d))))).

Definition assign_db (now : Z) (remedial_task : string)
    (mentor_email : option string) (student_id : string)
    (intervention_id : option Z) (d : Database) : Database :=
  snd (Sql.update_student_status remedial now student_id
         (snd (Sql.update_intervention_assigned now remedial_task mentor_email
                 student_id intervention_id d))).

Definition complete_db (now : Z) (student_id : string)
    (intervention_id : option Z) (d : Database) : Database :=
  snd (Sql.update_student_status active now student_id
         (snd (Sql.update_intervention_completed now student_id
                 intervention_id d))).

(** The row that a check-in inserts into daily_logs. *)
Definition new_log (now : Z) (student_id : string)
    (quiz_score focus_minutes tab_switches : Z) (d : Database) : DailyLog :=
  mkDailyLog (daily_logs_id_seq d) student_id quiz_score focus_minutes
    (Sql.current_date now)
    (passed quiz_score focus_minutes tab_switches) tab_switches now.

(** The row that a failed check-in inserts into interventions. *)
Definition new_ticket (now : Z) (student_id : string) (d : Database)
    : Intervention :=
  mkIntervention (interventions_id_seq d) student_id
    (Some (daily_logs_id_seq d)) None None pending None None now
    (Some (now + Sql.twelve_hours)).

(** The daily_logs row is accepted by the table. *)
Definition log_accepted (d : Database) (quiz_score focus_minutes : Z) : bool :=
  negb (daily_logs_checked d) || Sql.daily_logs_check quiz_score focus_minutes.
(* ================================================================== *)
(** ** Proof support *)

Ltac unfold_handlers :=
  unfold handle, Server.daily_checkin, Server.assign_intervention,
    Server.complete_remedial, Api.daily_checkin, Api.assign_intervention,
    Api.complete_remedial, Api.initDatabase, trigger_webhook, axios_post,
    Registry.notifyStudent, console_error, try_catch, bind, ret, lift, query,
    Sql.select_student, Sql.insert_daily_log, Sql.insert_intervention,
    Sql.update_student_status, Sql.update_intervention_assigned,
    Sql.update_intervention_completed, Sql.insert_sample_student,
    set_db, log_effect in *.

(** One case split on the next test of a handler. *)
Ltac branch :=
  match goal with
  | |- context [match ?c with _ => _ end] => is_var c; destruct c
  | |- context [if ?c then _ else _] => destruct c eqn:?
  | |- context [match filter ?p ?l with _ => _ end] =>
      destruct (filter p l) eqn:?
  | |- context [match Registry.get ?k ?m with _ => _ end] =>
      destruct (Registry.get k m) eqn:?
  | |- context [match N8N_WEBHOOK_URL ?e with _ => _ end] =>
      destruct (N8N_WEBHOOK_URL e) eqn:?
  end.

Ltac branches := repeat (branch; cbn).

(** *** SubmitCheckIn *)

(** The three ways a check-in ends. *)
Inductive CheckinCase (dep : Deployment) (env : Env) (body : CheckinBody)
    (w : World) (r : Response) (w' : World) : Prop :=
  | CheckinRejected (code : Z) (msg : string)
      (Hr : r = Error code msg)
      (Hcode : code = 400 \/ code = 404 \/ code = 500)
      (Hstudents : students (db w') = students (init_db dep (now env) (db w)))
      (Hlogs : daily_logs (db w') = daily_logs (db w))
      (Htickets : interventions (db w') = interventions (db w))
      (Hposts : escalations (trace w') = escalations (trace w))
  | CheckinPassed (student_id : string) (q f : Z)
      (Hsid : c_student_id body = Some student_id)
      (Hq : c_quiz_score body = Some q)
      (Hf : c_focus_minutes body = Some f)
      (Hpass : passed q f (default 0 (c_tab_switches body)) = true)
      (Hacc : log_accepted (init_db dep (now env) (db w)) q f = true)
      (Hr : r = CheckinOk "On Track"
                  (new_log (now env) student_id q f
                     (default 0 (c_tab_switches body))
                     (init_db dep (now env) (db w)))
                  true None)
      (Hdb : db w' = checkin_pass_db (now env) student_id q f
                       (default 0 (c_tab_switches body))
                       (init_db dep (now env) (db w)))
      (Hposts : escalations (trace w') = escalations (trace w))
  | CheckinFailed (student_id : string) (q f : Z)
      (Hsid : c_student_id body = Some student_id)
      (Hq : c_quiz_score body = Some q)
      (Hf : c_focus_minutes body = Some f)
      (Hpass : passed q f (default 0 (c_tab_switches body)) = false)
      (Hacc : log_accepted (init_db dep (now env) (db w)) q f = true)
      (Hr : r = CheckinOk "Pending Mentor Review"
                  (new_log (now env) student_id q f
                     (default 0 (c_tab_switches body))
                     (init_db dep (now env) (db w)))
                  false
                  (Some (interventions_id_seq (init_db dep (now env) (db w)))))
      (Hdb : db w' = checkin_fail_db (now env) student_id q f
                       (default 0 (c_tab_switches body))
                       (init_db dep (now env) (db w)))
      (student : Student)
      (Hstudent : hd_error (filter (fun s => String.eqb (s_student_id s) student_id)
                              (students (init_db dep (now env) (db w))))
                  = Some student)
      (Hposts : escalations (trace w') =
                escalations (trace w) ++
                match webhook_url env with
                | Some url =>
                    [(url, mkWebhookPayload student_id (s_name student)
                             (s_email student) q f
                             (default 0 (c_tab_switches body))
                             (interventions_id_seq (init_db dep (now env) (db w)))
                             (now env))]
                | None => []
                end).


(** The student an operation is addressed to. *)
Definition op_student (op : Operation) : option string :=
  match op with
  | SubmitCheckIn body => c_student_id body
  | AssignIntervention body => a_student_id body
  | CompleteRemedial body => r_student_id body
  end.

(** The tickets owned by a student, open or not. *)
Definition tickets_of (student_id : string) (d : Database) : list Intervention :=
  filter (fun i => String.eqb (i_student_id i) student_id) (interventions d).

(** What an operation must satisfy for the single-open-ticket predicate to
    survive it: a check-in that fails the gate finds no open ticket of its
    student, and an assignment names no closed ticket. *)
Definition single_ticket_guard (dep : Deployment) (env : Env) (op : Operation)
    (w : World) : Prop :=
  match op with
  | SubmitCheckIn body =>
      verdict (fst (handle dep env op w)) = Some false ->
      forall student_id,
        c_student_id body = Some student_id ->
        open_tickets student_id (db w) = []
  | AssignIntervention body =>
      forall student_id t,
        a_student_id body = Some student_id ->
        In t (interventions (db w)) ->
        Sql.intervention_matches student_id (a_intervention_id body) t = true ->
        is_open t = true
  | CompleteRemedial _ => True
  end.

(** A run in which every operation meets [single_ticket_guard] in the state
    it finds. *)
Fixpoint guarded_run (dep : Deployment) (reqs : list (Env * Operation))
    (w : World) : Prop :=
  match reqs with
  | [] => True
  | (env, op) :: rest =>
      single_ticket_guard dep env op w /\
      guarded_run dep rest (snd (handle dep env op w))
  end.

(** What holds of connectedStudents as a JS Map filled by the socket
    handlers: keys are distinct and socket ids are non-empty strings. *)
Definition registry_ok (m : Registry) : Prop :=
  NoDup (map fst m) /\ Forall (fun kv => truthy (snd kv) = true) m.

(** The first identity, in the map's insertion order, mapped to a socket. *)
Definition first_mapped (socket_id : string) (m : Registry) : option string :=
  option_map fst (find (fun kv => String.eqb (snd kv) socket_id) m).

(** *** Sample data *)

Definition sample_env : Env := mkEnv (Some "https://n8n.example/webhook") 1000 true.


Definition env_no_webhook : Env := mkEnv None 1000 true.

Definition env_gateway_down : Env :=
  mkEnv (Some "https://n8n.example/webhook") 1000 false.

(** submit(quizScore=5, focusMinutes=30, distractionCount=1) *)
Definition failing_body : CheckinBody :=
  mkCheckinBody (Some "123") (Some 5) (Some 30) (Some 1).

(** submit(quizScore=9, focusMinutes=90, distractionCount=0) *)
Definition passing_body : CheckinBody :=
  mkCheckinBody (Some "123") (Some 9) (Some 90) (Some 0).

(** The same request with the gateway answering or not. *)
Definition with_gateway (env : Env) (up : bool) : Env :=
  mkEnv (N8N_WEBHOOK_URL env) (now env) up.

(** AssignIntervention(taskText="Read Ch.4", mentorContact="m@x.com") on ticket 1 *)
Definition assign_body : AssignBody :=
  mkAssignBody (Some "123") (Some "Read Ch.4") (Some "m@x.com") (Some 1).


Definition complete_body : CompleteBody :=
  mkCompleteBody (Some "123") (Some 1).


(** A request of an unknown student, long after the sample ticket's deadline. *)
Definition late_env : Env :=
  mkEnv (Some "https://n8n.example/webhook") 1000000 true.

Definition stranger_body : CheckinBody :=
  mkCheckinBody (Some "456") (Some 9) (Some 90) (Some 0).

(** Two students connected on two sockets. *)
Definition sample_registry_world : World :=
  mkWorld (empty_database true) [("123", "sockA"); ("456", "sockB")] [].

(* ================================================================== *)
(** ** The read-only endpoints: student status and history *)

From Stdlib Require Import Permutation Sorted.

Module SqlRead.

(** ORDER BY key DESC.  Rows with equal keys are kept in table order
    (PostgreSQL leaves the order of such rows open). *)
Fixpoint insert_desc {A : Type} (key : A -> Z) (x : A) (sorted : list A)
    : list A :=
  match sorted with
  | [] => [x]
  | y :: rest =>
      if key y <=? key x then x :: y :: rest
      else y :: insert_desc key x rest
  end.

Definition order_by_desc {A : Type} (key : A -> Z) (rows : list A) : list A :=
  fold_right (insert_desc key) [] rows.

(** SELECT * FROM interventions
    WHERE student_id = $1 AND status IN ('pending', 'assigned')
    ORDER BY created_at DESC LIMIT 1 *)
Definition select_current_intervention (student_id : string) (d : Database)
    : Outcome (list Intervention) * Database :=
  (Done (firstn 1 (order_by_desc i_created_at
                     (filter (fun i => String.eqb (i_student_id i) student_id
                                       && is_open i)
                             (interventions d)))), d).

(** SELECT * FROM daily_logs WHERE student_id = $1
    ORDER BY created_at DESC LIMIT 30 *)
Definition select_recent_logs (student_id : string) (d : Database)
    : Outcome (list DailyLog) * Database :=
  (Done (firstn 30 (order_by_desc l_created_at
                      (filter (fun l => String.eqb (l_student_id l) student_id)
                              (daily_logs d)))), d).

(** SELECT * FROM interventions WHERE student_id = $1
    ORDER BY created_at DESC LIMIT 10 *)
Definition select_recent_interventions (student_id : string) (d : Database)
    : Outcome (list Intervention) * Database :=
  (Done (firstn 10 (order_by_desc i_created_at
                      (filter (fun i => String.eqb (i_student_id i) student_id)
                              (interventions d)))), d).

End SqlRead.

(** The order of the rows of an ORDER BY key DESC. *)
Definition newest_first {A : Type} (key : A -> Z) (a b : A) : Prop :=
  key b <= key a.

(** Answers of the GET routes. *)
Inductive ReadResponse : Type :=
  | ReadError (code : Z) (error : string)
  | Ended (code : Z)
  | StudentOk (student : Student) (intervention : option Intervention)
              (timestamp : Z)
  | HistoryOk (logs : list DailyLog) (interventions : list Intervention).

Definition read_code (r : ReadResponse) : Z :=
  match r with
  | ReadError code _ => code
  | Ended code => code
  | _ => 200
  end.

(** student.status === 'needs_intervention' || student.status === 'remedial' *)
Definition is_locked (st : StudentStatus) : bool :=
  match st with
  | needs_intervention | remedial => true
  | active | on_track => false
  end.

(** The body shared by the three copies of GET /api/student/:studentId, from
    the SELECT on students to res.json. *)
Definition student_lookup (env : Env) (studentId : string) : M ReadResponse :=
  studentResult <- query (Sql.select_student studentId) ;;
  match studentResult with
  | [] => ret (ReadError 404 "Student not found")
  | student :: _ =>
      if is_locked (s_status student) then
        interventionResult <- query (SqlRead.select_current_intervention
                                       studentId) ;;
        ret (StudentOk student (hd_error interventionResult) (now env))
      else ret (StudentOk student None (now env))
  end.

Module ServerRead.

(** app.get('/api/student/:studentId', ...) of server/index.js *)
Definition get_student (env : Env) (studentId : string) : Total ReadResponse :=
  try_catch (student_lookup env studentId)
    (fun msg w => (ReadError 500 "Internal server error",
                   log_effect w (ConsoleError msg))).

(** app.get('/api/student/:studentId/history', ...) of server/index.js and of
    api/index.js *)
Definition get_history (env : Env) (studentId : string) : Total ReadResponse :=
  try_catch
    (logs <- query (SqlRead.select_recent_logs studentId) ;;
     interventions <- query (SqlRead.select_recent_interventions studentId) ;;
     ret (HistoryOk logs interventions))
    (fun msg w => (ReadError 500 "Internal server error",
                   log_effect w (ConsoleError msg))).

End ServerRead.

Module ApiRead.

(** app.get('/api/student/:studentId', ...) of api/index.js and the GET
    branch of the handler of api/student/[studentId].js: initDatabase, then
    the lookup. *)
Definition get_student (env : Env) (studentId : string) : Total ReadResponse :=
  try_catch
    (lift (Api.initDatabase env) ;;;
     student_lookup env studentId)
    (fun msg w => (ReadError 500 "Internal server error",
                   log_effect w (ConsoleError msg))).

End ApiRead.

(** GET /api/student/:studentId in either deployment. *)
Definition read_student (dep : Deployment) (env : Env) (studentId : string)
    : Total ReadResponse :=
  match dep with
  | Express => ServerRead.get_student env studentId
  | Serverless => ApiRead.get_student env studentId
  end.

(* ------------------------------------------------------------------ *)
(** *** Well-formedness of the store *)

(** Ids come from the sequences: they are distinct and below the next value. *)
Definition ids_fresh (d : Database) : Prop :=
  NoDup (map l_id (daily_logs d)) /\
  (forall l, In l (daily_logs d) -> l_id l < daily_logs_id_seq d) /\
  NoDup (map i_id (interventions d)) /\
  (forall t, In t (interventions d) -> i_id t < interventions_id_seq d).

(** trigger_log_id REFERENCES daily_logs(id): the log that opened a ticket is
    there, belongs to the ticket's student and failed the gate. *)
Definition tickets_triggered (d : Database) : Prop :=
  forall t, In t (interventions d) ->
    exists l, In l (daily_logs d) /\
              i_trigger_log_id t = Some (l_id l) /\
              l_student_id l = i_student_id t /\
              l_passed l = false.

(** A student who needs intervention has a 'pending' ticket. *)
Definition locked_has_ticket (d : Database) : Prop :=
  forall student_id,
    student_status student_id d = Some needs_intervention ->
    exists t, In t (interventions d) /\
              i_student_id t = student_id /\ i_status t = pending.

(** The fields of a ticket that no UPDATE of the handlers assigns. *)
Definition same_ticket (t t' : Intervention) : Prop :=
  i_id t' = i_id t /\ i_student_id t' = i_student_id t /\
  i_trigger_log_id t' = i_trigger_log_id t /\
  i_created_at t' = i_created_at t /\ i_expires_at t' = i_expires_at t.

(** What notifyStudent emits for a student: one event to the socket mapped
    for the student, nothing when none is mapped. *)
Definition push_to (m : Registry) (studentId event : string) (data : PushData)
    : list (string * string * PushData) :=
  match Registry.get studentId m with
  | Some socketId => if truthy socketId then [(socketId, event, data)] else []
  | None => []
  end.

(** The effects of the webhook step of a failing check-in, in order: the POST
    when an address is configured, then the console.error of the catch block
    when the POST rejects. *)
Definition webhook_effects (env : Env) (payload : WebhookPayload)
    : list Effect :=
  match webhook_url env with
  | Some url =>
      HttpPost url payload
      :: (if gateway_up env then [] else [ConsoleError "Request failed"])
  | None => []
  end.

Definition emit_all (l : list (string * string * PushData)) : list Effect :=
  map (fun p => Emit (fst (fst p)) (snd (fst p)) (snd p)) l.

(* ================================================================== *)
(** ** The student app (client/src/App.jsx, src/unnamed/part_004): focus
       timer and tab-switch detection.  One event is handled at a time, on
       the state of the last render. *)

Module Client.

(** showAlert(message, type): the alerts of the timer functions. *)
Inductive Alert : Type :=
  | SessionFailed           (* 'Session failed! You switched tabs too many times.', 'error' *)
  | TimerStarted            (* 'Focus timer started! Stay on this tab.', 'success' *)
  | TimerStopped (minutes : Z). (* `Timer stopped at ${focusMinutes} minutes`, 'success' *)

(** The useState cells read or written by the timer functions. *)
Record State : Type := mkState {
  focusMinutes : Z;
  isTimerRunning : bool;
  timerStartTime : option Z;
  tabSwitches : Z;
  isTabActive : bool;
  alert : option Alert
}.


(** handleVisibilityChange, with document.hidden as [hidden]. *)
Definition handleVisibilityChange (hidden : bool) (s : State) : State :=
  if hidden && isTimerRunning s then
    let newCount := tabSwitches s + 1 in
    if newCount >=? 3 then
      mkState (focusMinutes s) false (timerStartTime s) newCount false
        (Some SessionFailed)
    else
      mkState (focusMinutes s) (isTimerRunning s) (timerStartTime s) newCount
        false (alert s)
  else if negb hidden then
    mkState (focusMinutes s) (isTimerRunning s) (timerStartTime s)
      (tabSwitches s) true (alert s)
  else s.

(** startFocusTimer, with Date.now() as [now] (milliseconds). *)
Definition startFocusTimer (now : Z) (s : State) : State :=
  mkState 0 true (Some now) 0 (isTabActive s) (Some TimerStarted).

(** stopFocusTimer *)
Definition stopFocusTimer (s : State) : State :=
  mkState (focusMinutes s) false (timerStartTime s) (tabSwitches s)
    (isTabActive s) (Some (TimerStopped (focusMinutes s))).

(** The setInterval callback of the timer effect, which exists only while
    isTimerRunning: Math.floor((Date.now() - timerStartTime) / 60000). *)
Definition tick (now : Z) (s : State) : State :=
  if isTimerRunning s then
    mkState ((now - match timerStartTime s with Some t => t | None => 0 end)
             / 60000)
      (isTimerRunning s) (timerStartTime s) (tabSwitches s) (isTabActive s)
      (alert s)
  else s.

Inductive Event : Type :=
  | VisibilityChange (hidden : bool)
  | StartFocusTimer (now : Z)
  | StopFocusTimer
  | Tick (now : Z).

Definition step (s : State) (e : Event) : State :=
  match e with
  | VisibilityChange hidden => handleVisibilityChange hidden s
  | StartFocusTimer now => startFocusTimer now s
  | StopFocusTimer => stopFocusTimer s
  | Tick now => tick now s
  end.

Definition run (events : list Event) (s : State) : State :=
  fold_left step events s.

End Client.

(* ================================================================== *)
(** ** Lemmas on the handlers *)

Lemma escalations_app (t1 t2 : list Effect) :
  escalations (t1 ++ t2) = escalations t1 ++ escalations t2.
Proof. unfold escalations. apply flat_map_app. Qed.

(** Close a side condition of [CheckinCase] after the case split. *)
Ltac close_case :=
  cbn;
  unfold new_log, checkin_pass_db, checkin_fail_db, init_db, webhook_url,
    log_accepted,
    Sql.insert_intervention, Sql.update_student_status, Sql.insert_daily_log,
    Sql.insert_sample_student;
  cbn; rewrite ?escalations_app; cbn; rewrite ?app_nil_r;
  repeat match goal with
         | H : _ = true |- _ => rewrite H
         | H : _ = false |- _ => rewrite H
         | H : N8N_WEBHOOK_URL _ = _ |- _ => rewrite H
         | H : filter _ _ = _ |- _ => rewrite H
         end;
  cbn; rewrite ?app_nil_r; auto;
  try match goal with
      | H : ?a && negb ?b = false |- negb ?a || ?b = true =>
          destruct a, b; cbn in *; congruence
      end.

Lemma checkin_cases (dep : Deployment) (env : Env) (body : CheckinBody)
    (w : World) :
  CheckinCase dep env body w (fst (handle dep env (SubmitCheckIn body) w))
                             (snd (handle dep env (SubmitCheckIn body) w)).
Proof.
  destruct body as [sid q f t], w as [d m tr].
  destruct dep; unfold_handlers; cbn; branches.
  all: first
    [ solve [eapply CheckinRejected; close_case]
    | solve [eapply CheckinPassed; close_case]
    | solve [eapply CheckinFailed; close_case]
    | idtac ].
Qed.


(** *** AssignIntervention and CompleteRemedial *)

Lemma assign_result (dep : Deployment) (env : Env) (body : AssignBody)
    (w : World) (student_id remedial_task : string) :
  a_student_id body = Some student_id ->
  a_remedial_task body = Some remedial_task ->
  truthy student_id = true ->
  truthy remedial_task = true ->
  fst (handle dep env (AssignIntervention body) w)
    = AssignOk student_id remedial_task /\
  db (snd (handle dep env (AssignIntervention body) w))
    = assign_db (now env) remedial_task (a_mentor_email body) student_id
        (a_intervention_id body) (db w).
Proof.
  destruct body as [sid task mail id], w as [d m tr]; cbn.
  intros -> -> Hsid Htask.
  destruct dep; unfold_handlers; cbn; rewrite Hsid, Htask; cbn;
    branches; split; reflexivity.
Qed.

Lemma complete_result (dep : Deployment) (env : Env) (body : CompleteBody)
    (w : World) (student_id : string) :
  r_student_id body = Some student_id ->
  truthy student_id = true ->
  fst (handle dep env (CompleteRemedial body) w) = CompleteOk "active" /\
  db (snd (handle dep env (CompleteRemedial body) w))
    = complete_db (now env) student_id (r_intervention_id body) (db w).
Proof.
  destruct body as [sid id], w as [d m tr]; cbn.
  intros -> Hsid.
  destruct dep; unfold_handlers; cbn; rewrite Hsid; cbn;
    branches; split; reflexivity.
Qed.

(** A request without a student identity is answered 400 and nothing is
    touched. *)
Lemma complete_rejected (dep : Deployment) (env : Env) (body : CompleteBody)
    (w : World) :
  missing (r_student_id body) = true ->
  handle dep env (CompleteRemedial body) w = (Error 400 "Missing student_id", w).
Proof.
  destruct body as [sid id], w as [d m tr]; cbn.
  destruct sid as [sid|]; cbn; intros H;
    destruct dep; unfold_handlers; cbn; rewrite ?H; reflexivity.
Qed.

Lemma assign_rejected (dep : Deployment) (env : Env) (body : AssignBody)
    (w : World) :
  missing (a_student_id body) || missing (a_remedial_task body) = true ->
  handle dep env (AssignIntervention body) w
    = (Error 400 "Missing required fields: student_id, remedial_task", w).
Proof.
  destruct body as [sid task mail id], w as [d m tr]; cbn.
  destruct sid as [sid|], task as [task|]; cbn; intros H;
    destruct dep; unfold_handlers; cbn; rewrite ?H; reflexivity.
Qed.

(** No HTTP handler writes to connectedStudents. *)
Lemma handle_registry (dep : Deployment) (env : Env) (op : Operation)
    (w : World) :
  connectedStudents (snd (handle dep env op w)) = connectedStudents w.
Proof.
  destruct w as [d m tr], op as [[sid q f t]|[sid task mail id]|[sid id]];
    destruct dep; unfold_handlers; cbn; branches; reflexivity.
Qed.

(** *** The store after each statement *)

Lemma status_after_update (st : StudentStatus) (now : Z)
    (student_id sid : string) (d : Database) :
  student_status sid (snd (Sql.update_student_status st now student_id d))
  = if String.eqb sid student_id
    then option_map (fun _ => st) (student_status sid d)
    else student_status sid d.
Proof.
  unfold student_status, Sql.update_student_status; cbn.
  induction (students d) as [|s l IH]; cbn.
  - destruct (String.eqb sid student_id); reflexivity.
  - destruct (String.eqb (s_student_id s) student_id) eqn:E1; cbn.
    + destruct (String.eqb (s_student_id s) sid) eqn:E2; cbn.
      * apply String.eqb_eq in E1, E2. subst. rewrite String.eqb_refl.
        reflexivity.
      * exact IH.
    + destruct (String.eqb (s_student_id s) sid) eqn:E2; cbn.
      * apply String.eqb_eq in E2. subst. rewrite E1. reflexivity.
      * exact IH.
Qed.

Lemma status_after_init (dep : Deployment) (now : Z) (sid : string)
    (d : Database) :
  student_status sid d <> None ->
  student_status sid (init_db dep now d) = student_status sid d.
Proof.
  destruct dep; cbn; [reflexivity|].
  unfold student_status; cbn.
  destruct (existsb _ _); [reflexivity|].
  rewrite filter_app.
  destruct (filter _ (students d)); [congruence|reflexivity].
Qed.


Lemma open_tickets_map_le (f : Intervention -> Intervention) (sid : string)
    (l : list Intervention) :
  (forall i, i_student_id (f i) = i_student_id i) ->
  (forall i, is_open (f i) = true -> is_open i = true) ->
  (List.length (filter (fun i => String.eqb (i_student_id i) sid && is_open i)
                  (map f l))
   <= List.length (filter (fun i => String.eqb (i_student_id i) sid && is_open i)
                     l))%nat.
Proof.
  intros Hid Hopen. induction l as [|i l IH]; cbn; [lia|].
  rewrite Hid.
  destruct (String.eqb (i_student_id i) sid); cbn; [|exact IH].
  destruct (is_open (f i)) eqn:E; cbn.
  - rewrite (Hopen i E); cbn. lia.
  - destruct (is_open i); cbn; lia.
Qed.

Lemma open_tickets_map_eq (f : Intervention -> Intervention) (sid : string)
    (l : list Intervention) :
  (forall i, i_student_id (f i) = i_student_id i) ->
  (forall i, In i l -> is_open (f i) = is_open i) ->
  List.length (filter (fun i => String.eqb (i_student_id i) sid && is_open i)
                 (map f l))
  = List.length (filter (fun i => String.eqb (i_student_id i) sid && is_open i)
                   l).
Proof.
  intros Hid Hopen. induction l as [|i l IH]; cbn; [reflexivity|].
  rewrite Hid, (Hopen i) by (left; reflexivity).
  destruct (_ && _); cbn; rewrite IH; auto; intros; apply Hopen; right; auto.
Qed.

Lemma tables_after_init (dep : Deployment) (now : Z) (d : Database) :
  daily_logs (init_db dep now d) = daily_logs d /\
  interventions (init_db dep now d) = interventions d /\
  daily_logs_id_seq (init_db dep now d) = daily_logs_id_seq d /\
  interventions_id_seq (init_db dep now d) = interventions_id_seq d /\
  daily_logs_checked (init_db dep now d) = daily_logs_checked d.
Proof. destruct dep; cbn; auto. Qed.

Lemma tables_after_pass (now : Z) (sid : string) (q f t : Z) (d : Database) :
  log_accepted d q f = true ->
  passed q f t = true ->
  daily_logs (checkin_pass_db now sid q f t d)
    = daily_logs d ++ [new_log now sid q f t d] /\
  interventions (checkin_pass_db now sid q f t d) = interventions d.
Proof.
  unfold log_accepted, checkin_pass_db, new_log, Sql.insert_daily_log,
    Sql.update_student_status.
  intros Hacc ->. destruct (daily_logs_checked d), (Sql.daily_logs_check q f);
    cbn in *; try discriminate; auto.
Qed.

Lemma tables_after_fail (now : Z) (sid : string) (q f t : Z) (d : Database) :
  log_accepted d q f = true ->
  passed q f t = false ->
  daily_logs (checkin_fail_db now sid q f t d)
    = daily_logs d ++ [new_log now sid q f t d] /\
  interventions (checkin_fail_db now sid q f t d)
    = interventions d ++ [new_ticket now sid d].
Proof.
  unfold log_accepted, checkin_fail_db, new_log, new_ticket,
    Sql.insert_daily_log, Sql.update_student_status, Sql.insert_intervention.
  intros Hacc ->. destruct (daily_logs_checked d), (Sql.daily_logs_check q f);
    cbn in *; try discriminate; auto.
Qed.

Lemma status_after_fail (now : Z) (student_id sid : string) (q f t : Z)
    (d : Database) :
  student_status sid (checkin_fail_db now student_id q f t d)
  = if String.eqb sid student_id
    then option_map (fun _ => needs_intervention) (student_status sid d)
    else student_status sid d.
Proof.
  unfold checkin_fail_db.
  rewrite <- (status_after_update needs_intervention now student_id sid d).
  unfold student_status, Sql.insert_intervention, Sql.update_student_status,
    Sql.insert_daily_log.
  destruct (_ && _); reflexivity.
Qed.

Lemma passed_iff (q f t : Z) :
  passed q f t = true <-> q > 7 /\ f > 60 /\ t < 3.
Proof.
  unfold passed. rewrite !andb_true_iff, !Z.gtb_ltb, !Z.ltb_lt. lia.
Qed.


(** daily_logs only grows, at its end. *)
Lemma logs_append_only (dep : Deployment) (env : Env) (op : Operation)
    (w : World) :
  exists more,
    daily_logs (db (snd (handle dep env op w))) = daily_logs (db w) ++ more.
Proof.
  destruct w as [d m tr], op as [[sid q f t]|[sid task mail id]|[sid id]];
    destruct dep; unfold_handlers; cbn; branches;
    first [ exists []; cbn; rewrite app_nil_r; reflexivity
          | eexists; reflexivity ].
Qed.

Lemma logs_append_only_run (dep : Deployment) (reqs : list (Env * Operation))
    (w : World) :
  exists more, daily_logs (db (run dep reqs w)) = daily_logs (db w) ++ more.
Proof.
  revert w. induction reqs as [|[env op] reqs IH]; intros w; cbn.
  - exists []. rewrite app_nil_r. reflexivity.
  - destruct (IH (snd (handle dep env op w))) as [more2 ->].
    destruct (logs_append_only dep env op w) as [more1 ->].
    exists (more1 ++ more2). rewrite app_assoc. reflexivity.
Qed.

(** Whether the gateway answers changes neither the response, nor the store,
    nor the calls and pushes made. *)
Lemma gateway_irrelevant (dep : Deployment) (env : Env) (op : Operation)
    (w : World) (up1 up2 : bool) :
  fst (handle dep (with_gateway env up1) op w)
    = fst (handle dep (with_gateway env up2) op w) /\
  db (snd (handle dep (with_gateway env up1) op w))
    = db (snd (handle dep (with_gateway env up2) op w)) /\
  escalations (trace (snd (handle dep (with_gateway env up1) op w)))
    = escalations (trace (snd (handle dep (with_gateway env up2) op w))) /\
  deliveries (trace (snd (handle dep (with_gateway env up1) op w)))
    = deliveries (trace (snd (handle dep (with_gateway env up2) op w))).
Proof.
  destruct w as [d m tr], op as [[sid q f t]|[sid task mail id]|[sid id]];
    destruct dep, up1, up2; unfold_handlers; cbn; branches;
    unfold escalations, deliveries; rewrite ?flat_map_app; cbn;
    rewrite ?app_nil_r; auto.
Qed.

(** server/index.js rejects out-of-range figures before it reads or writes
    anything. *)
Lemma express_checkin_validation (env : Env) (body : CheckinBody) (w : World)
    (q f : Z) :
  c_quiz_score body = Some q ->
  c_focus_minutes body = Some f ->
  q < 0 \/ q > 10 \/ f < 0 ->
  exists msg, handle Express env (SubmitCheckIn body) w = (Error 400 msg, w).
Proof.
  destruct body as [sid q' f' t], w as [d m tr]; cbn. intros -> -> Hr.
  unfold_handlers; cbn. destruct sid as [sid|]; [|eexists; reflexivity].
  destruct (negb (truthy sid)); [eexists; reflexivity|].
  destruct ((q <? 0) || (q >? 10)) eqn:Eq; [eexists; reflexivity|].
  destruct (f <? 0) eqn:Ef; [eexists; reflexivity|].
  apply orb_false_iff in Eq. destruct Eq as [E1 E2].
  rewrite Z.ltb_ge in E1, Ef. rewrite Z.gtb_ltb, Z.ltb_ge in E2. lia.
Qed.

(** *** The store after AssignIntervention and CompleteRemedial *)

Lemma status_after_assign (now : Z) (task : string) (mail : option string)
    (student_id : string) (id : option Z) (sid : string) (d : Database) :
  student_status sid (assign_db now task mail student_id id d)
  = if String.eqb sid student_id
    then option_map (fun _ => remedial) (student_status sid d)
    else student_status sid d.
Proof.
  unfold assign_db.
  rewrite <- (status_after_update remedial now student_id sid d).
  reflexivity.
Qed.

Lemma status_after_complete (now : Z) (student_id : string) (id : option Z)
    (sid : string) (d : Database) :
  student_status sid (complete_db now student_id id d)
  = if String.eqb sid student_id
    then option_map (fun _ => active) (student_status sid d)
    else student_status sid d.
Proof.
  unfold complete_db.
  rewrite <- (status_after_update active now student_id sid d).
  reflexivity.
Qed.


Lemma tables_after_assign (now : Z) (task : string) (mail : option string)
    (student_id : string) (id : option Z) (d : Database) :
  interventions (assign_db now task mail student_id id d)
    = map (fun i => if Sql.intervention_matches student_id id i
                    then Sql.set_assigned task mail now i else i)
          (interventions d) /\
  daily_logs (assign_db now task mail student_id id d) = daily_logs d.
Proof. split; reflexivity. Qed.

Lemma tables_after_complete (now : Z) (student_id : string) (id : option Z)
    (d : Database) :
  interventions (complete_db now student_id id d)
    = map (fun i => if Sql.intervention_matches student_id id i
                    then Sql.set_completed now i else i)
          (interventions d) /\
  daily_logs (complete_db now student_id id d) = daily_logs d.
Proof. split; reflexivity. Qed.




(** Rows outside the WHERE clause survive an UPDATE. *)
Lemma in_map_unmatched (p : Intervention -> bool)
    (f : Intervention -> Intervention) (l : list Intervention)
    (t : Intervention) :
  In t l -> p t = false -> In t (map (fun i => if p i then f i else i) l).
Proof.
  intros Hin Hp. apply in_map_iff. exists t. rewrite Hp. auto.
Qed.

(** *** Every way AssignIntervention and CompleteRemedial end *)

Lemma assign_cases (dep : Deployment) (env : Env) (body : AssignBody)
    (w : World) :
  snd (handle dep env (AssignIntervention body) w) = w \/
  exists student_id remedial_task,
    a_student_id body = Some student_id /\
    db (snd (handle dep env (AssignIntervention body) w))
      = assign_db (now env) remedial_task (a_mentor_email body) student_id
          (a_intervention_id body) (db w).
Proof.
  destruct (missing (a_student_id body) || missing (a_remedial_task body))
    eqn:E.
  - left. rewrite (assign_rejected dep env body w E). reflexivity.
  - right. apply orb_false_iff in E. destruct E as [E1 E2].
    destruct (a_student_id body) as [sid|] eqn:Hs; [|discriminate].
    destruct (a_remedial_task body) as [task|] eqn:Ht; [|discriminate].
    cbn in E1, E2. apply negb_false_iff in E1, E2.
    exists sid, task. split; [reflexivity|].
    apply (assign_result dep env body w sid task Hs Ht E1 E2).
Qed.

Lemma complete_cases (dep : Deployment) (env : Env) (body : CompleteBody)
    (w : World) :
  snd (handle dep env (CompleteRemedial body) w) = w \/
  exists student_id,
    r_student_id body = Some student_id /\
    db (snd (handle dep env (CompleteRemedial body) w))
      = complete_db (now env) student_id (r_intervention_id body) (db w).
Proof.
  destruct (missing (r_student_id body)) eqn:E.
  - left. rewrite (complete_rejected dep env body w E). reflexivity.
  - right. destruct (r_student_id body) as [sid|] eqn:Hs; [|discriminate].
    cbn in E. apply negb_false_iff in E.
    exists sid. split; [reflexivity|].
    apply (complete_result dep env body w sid Hs E).
Qed.

(** *** Open tickets across an operation *)

Lemma open_after_complete (sid : string) (now : Z) (student_id : string)
    (id : option Z) (d : Database) :
  (List.length (open_tickets sid (complete_db now student_id id d))
   <= List.length (open_tickets sid d))%nat.
Proof.
  unfold open_tickets.
  rewrite (proj1 (tables_after_complete now student_id id d)).
  apply open_tickets_map_le.
  - intros i. destruct (Sql.intervention_matches _ _ i); reflexivity.
  - intros i. destruct (Sql.intervention_matches _ _ i); [discriminate|auto].
Qed.

Lemma open_after_assign (sid : string) (now : Z) (task : string)
    (mail : option string) (student_id : string) (id : option Z)
    (d : Database) :
  (forall t, In t (interventions d) ->
     Sql.intervention_matches student_id id t = true -> is_open t = true) ->
  List.length (open_tickets sid (assign_db now task mail student_id id d))
  = List.length (open_tickets sid d).
Proof.
  intros Hopen. unfold open_tickets.
  rewrite (proj1 (tables_after_assign now task mail student_id id d)).
  apply open_tickets_map_eq.
  - intros i. destruct (Sql.intervention_matches _ _ i); reflexivity.
  - intros i Hin.
    destruct (Sql.intervention_matches _ _ i) eqn:E; [|reflexivity].
    rewrite (Hopen i Hin E). reflexivity.
Qed.

Lemma open_after_fail (sid : string) (now : Z) (student_id : string)
    (q f t : Z) (d : Database) :
  log_accepted d q f = true ->
  passed q f t = false ->
  open_tickets sid (checkin_fail_db now student_id q f t d)
  = open_tickets sid d
    ++ (if String.eqb student_id sid then [new_ticket now student_id d] else []).
Proof.
  intros Hacc Hfail. unfold open_tickets.
  rewrite (proj2 (tables_after_fail now student_id q f t d Hacc Hfail)).
  rewrite filter_app. cbn.
  destruct (String.eqb student_id sid); reflexivity.
Qed.

(** A check-in that does not fail the gate writes no ticket. *)
Lemma tickets_after_checkin (dep : Deployment) (env : Env) (body : CheckinBody)
    (w : World) :
  verdict (fst (handle dep env (SubmitCheckIn body) w)) <> Some false ->
  interventions (db (snd (handle dep env (SubmitCheckIn body) w)))
  = interventions (db w).
Proof.
  intros Hv.
  destruct (tables_after_init dep (now env) (db w)) as (_ & Hi & _).
  destruct (checkin_cases dep env body w).
  - assumption.
  - rewrite Hdb, (proj2 (tables_after_pass _ _ _ _ _ _ Hacc Hpass)). exact Hi.
  - rewrite Hr in Hv. cbn in Hv. congruence.
Qed.

(** A check-in that fails the gate appends one 'pending' ticket. *)
Lemma tickets_after_failed_checkin (dep : Deployment) (env : Env)
    (body : CheckinBody) (w : World) :
  verdict (fst (handle dep env (SubmitCheckIn body) w)) = Some false ->
  exists student_id,
    c_student_id body = Some student_id /\
    interventions (db (snd (handle dep env (SubmitCheckIn body) w)))
    = interventions (db w)
      ++ [new_ticket (now env) student_id (init_db dep (now env) (db w))] /\
    forall sid,
      open_tickets sid (db (snd (handle dep env (SubmitCheckIn body) w)))
      = open_tickets sid (db w)
        ++ (if String.eqb student_id sid
            then [new_ticket (now env) student_id
                    (init_db dep (now env) (db w))]
            else []).
Proof.
  intros Hv.
  destruct (tables_after_init dep (now env) (db w)) as (_ & Hi & _).
  destruct (checkin_cases dep env body w).
  - rewrite Hr in Hv. discriminate.
  - rewrite Hr in Hv. discriminate.
  - exists student_id. split; [assumption|]. split.
    + rewrite Hdb, (proj2 (tables_after_fail _ _ _ _ _ _ Hacc Hpass)), Hi.
      reflexivity.
    + intros sid. rewrite Hdb, (open_after_fail _ _ _ _ _ _ _ Hacc Hpass).
      unfold open_tickets. rewrite Hi. reflexivity.
Qed.

(** *** No handler writes 'expired'; requests of other students leave a
        student's tickets and status alone *)

Lemma expired_step (dep : Deployment) (env : Env) (op : Operation) (w : World)
    (t : Intervention) :
  In t (interventions (db (snd (handle dep env op w)))) ->
  i_status t = expired ->
  In t (interventions (db w)).
Proof.
  destruct op as [body|body|body].
  - destruct (verdict (fst (handle dep env (SubmitCheckIn body) w)))
      as [[|]|] eqn:Hv.
    + rewrite tickets_after_checkin by congruence. auto.
    + destruct (tickets_after_failed_checkin dep env body w Hv)
        as (sid & _ & -> & _).
      intros Hin Hexp. apply in_app_or in Hin. destruct Hin as [Hin|Hin]; auto.
      destruct Hin as [<-|[]]. discriminate.
    + rewrite tickets_after_checkin by congruence. auto.
  - destruct (assign_cases dep env body w)
      as [-> | (sid & task & _ & ->)]; [auto|].
    rewrite (proj1 (tables_after_assign _ _ _ _ _ _)).
    intros Hin Hexp. apply in_map_iff in Hin. destruct Hin as (i & <- & Hin).
    destruct (Sql.intervention_matches _ _ i); [discriminate|exact Hin].
  - destruct (complete_cases dep env body w)
      as [-> | (sid & _ & ->)]; [auto|].
    rewrite (proj1 (tables_after_complete _ _ _ _)).
    intros Hin Hexp. apply in_map_iff in Hin. destruct Hin as (i & <- & Hin).
    destruct (Sql.intervention_matches _ _ i); [discriminate|exact Hin].
Qed.

Lemma status_after_pass (now : Z) (student_id sid : string) (q f t : Z)
    (d : Database) :
  student_status sid (checkin_pass_db now student_id q f t d)
  = if String.eqb sid student_id
    then option_map (fun _ => on_track) (student_status sid d)
    else student_status sid d.
Proof.
  unfold checkin_pass_db.
  rewrite <- (status_after_update on_track now student_id sid d).
  unfold student_status, Sql.update_student_status, Sql.insert_daily_log.
  destruct (_ && _); reflexivity.
Qed.

Lemma tickets_of_map_other (f : Intervention -> Intervention)
    (student_id sid : string) (id : option Z) (l : list Intervention) :
  String.eqb sid student_id = false ->
  (forall i, i_student_id (f i) = i_student_id i) ->
  filter (fun i => String.eqb (i_student_id i) sid)
    (map (fun i => if Sql.intervention_matches student_id id i
                   then f i else i) l)
  = filter (fun i => String.eqb (i_student_id i) sid) l.
Proof.
  intros Hne Hf. induction l as [|i l IH]; cbn; [reflexivity|].
  rewrite IH.
  destruct (Sql.intervention_matches student_id id i) eqn:Hm; [|reflexivity].
  rewrite Hf. destruct (String.eqb (i_student_id i) sid) eqn:E; [|reflexivity].
  exfalso. destruct id as [id|]; [|discriminate]. cbn in Hm.
  apply andb_true_iff in Hm. destruct Hm as [Hm _].
  apply String.eqb_eq in Hm, E. rewrite <- E, Hm, String.eqb_refl in Hne.
  discriminate.
Qed.

Lemma untouched_step (dep : Deployment) (env : Env) (op : Operation)
    (w : World) (sid : string) :
  op_student op <> Some sid ->
  student_status sid (db w) <> None ->
  tickets_of sid (db (snd (handle dep env op w))) = tickets_of sid (db w) /\
  student_status sid (db (snd (handle dep env op w)))
    = student_status sid (db w).
Proof.
  intros Hop Hex.
  assert (Hother : forall student_id, op_student op = Some student_id ->
                     String.eqb sid student_id = false).
  { intros student_id H. apply String.eqb_neq. congruence. }
  destruct op as [body|body|body]; cbn in Hop, Hother.
  - destruct (tables_after_init dep (now env) (db w)) as (_ & Hi & _).
    pose proof (status_after_init dep (now env) sid (db w) Hex) as Hinit.
    destruct (checkin_cases dep env body w).
    + split; [unfold tickets_of; rewrite Htickets; reflexivity|].
      rewrite <- Hinit. unfold student_status. rewrite Hstudents. reflexivity.
    + split.
      * unfold tickets_of.
        rewrite Hdb, (proj2 (tables_after_pass _ _ _ _ _ _ Hacc Hpass)), Hi.
        reflexivity.
      * rewrite Hdb, status_after_pass, (Hother _ Hsid). exact Hinit.
    + split.
      * unfold tickets_of.
        rewrite Hdb, (proj2 (tables_after_fail _ _ _ _ _ _ Hacc Hpass)), Hi.
        rewrite filter_app. cbn.
        rewrite String.eqb_sym, (Hother _ Hsid). apply app_nil_r.
      * rewrite Hdb, status_after_fail, (Hother _ Hsid). exact Hinit.
  - destruct (assign_cases dep env body w)
      as [-> | (student_id & task & Hsid & ->)]; [auto|].
    split.
    + unfold tickets_of. rewrite (proj1 (tables_after_assign _ _ _ _ _ _)).
      apply tickets_of_map_other; [apply Hother, Hsid|reflexivity].
    + rewrite status_after_assign, (Hother _ Hsid). reflexivity.
  - destruct (complete_cases dep env body w)
      as [-> | (student_id & Hsid & ->)]; [auto|].
    split.
    + unfold tickets_of. rewrite (proj1 (tables_after_complete _ _ _ _)).
      apply tickets_of_map_other; [apply Hother, Hsid|reflexivity].
    + rewrite status_after_complete, (Hother _ Hsid). reflexivity.
Qed.

(** *** connectedStudents *)

Lemma get_set_same (k v : string) (m : Registry) :
  Registry.get k (Registry.set k v m) = Some v.
Proof.
  induction m as [|[k0 v0] m IH]; cbn.
  - rewrite String.eqb_refl. reflexivity.
  - destruct (String.eqb k0 k) eqn:E; cbn; rewrite E; auto.
Qed.

Lemma get_set_other (k k' v : string) (m : Registry) :
  k' <> k -> Registry.get k' (Registry.set k v m) = Registry.get k' m.
Proof.
  intros Hne. induction m as [|[k0 v0] m IH]; cbn.
  - apply String.eqb_neq in Hne. rewrite String.eqb_sym, Hne. reflexivity.
  - destruct (String.eqb k0 k) eqn:E; cbn.
    + apply String.eqb_eq in E. subst k0.
      apply String.eqb_neq in Hne. rewrite String.eqb_sym, Hne. reflexivity.
    + destruct (String.eqb k0 k'); auto.
Qed.

Lemma get_delete_same (k : string) (m : Registry) :
  Registry.get k (Registry.delete k m) = None.
Proof.
  unfold Registry.delete. induction m as [|[k0 v0] m IH]; cbn; [reflexivity|].
  destruct (String.eqb k0 k) eqn:E; cbn; [exact IH|]. rewrite E. exact IH.
Qed.

Lemma get_delete_other (k k' : string) (m : Registry) :
  k' <> k -> Registry.get k' (Registry.delete k m) = Registry.get k' m.
Proof.
  intros Hne. unfold Registry.delete.
  induction m as [|[k0 v0] m IH]; cbn; [reflexivity|].
  destruct (String.eqb k0 k) eqn:E; cbn.
  - apply String.eqb_eq in E. subst k0.
    apply String.eqb_neq in Hne. rewrite String.eqb_sym, Hne. exact IH.
  - destruct (String.eqb k0 k'); auto.
Qed.

Lemma get_in (k v : string) (m : Registry) :
  Registry.get k m = Some v -> In (k, v) m.
Proof.
  induction m as [|[k0 v0] m IH]; cbn; [discriminate|].
  destruct (String.eqb k0 k) eqn:E.
  - apply String.eqb_eq in E. intros [= ->]. subst. auto.
  - auto.
Qed.

Lemma in_get (k v : string) (m : Registry) :
  NoDup (map fst m) -> In (k, v) m -> Registry.get k m = Some v.
Proof.
  induction m as [|[k0 v0] m IH]; cbn; [tauto|].
  intros Hnd Hin. inversion Hnd as [|x xs Hnotin Hnd']; subst.
  destruct Hin as [[= -> ->]|Hin].
  - rewrite String.eqb_refl. reflexivity.
  - destruct (String.eqb k0 k) eqn:E; [|auto].
    apply String.eqb_eq in E. subst k0. exfalso. apply Hnotin.
    apply in_map_iff. exists (k, v). auto.
Qed.

Lemma set_keys (k v : string) (m : Registry) :
  map fst (Registry.set k v m)
  = if existsb (String.eqb k) (map fst m) then map fst m
    else map fst m ++ [k].
Proof.
  induction m as [|[k0 v0] m IH]; cbn; [reflexivity|].
  rewrite (String.eqb_sym k k0).
  destruct (String.eqb k0 k) eqn:E; cbn; [reflexivity|].
  rewrite IH. destruct (existsb _ _); reflexivity.
Qed.

Lemma registry_ok_set (k v : string) (m : Registry) :
  registry_ok m -> truthy v = true -> registry_ok (Registry.set k v m).
Proof.
  intros [Hnd Hall] Hv. split.
  - rewrite set_keys. destruct (existsb _ _) eqn:E; [exact Hnd|].
    apply NoDup_app; [exact Hnd|repeat constructor; auto|].
    intros x Hin [Hx|[]]. subst x.
    assert (existsb (String.eqb k) (map fst m) = true); [|congruence].
    apply existsb_exists. exists k. split; [exact Hin|apply String.eqb_refl].
  - clear Hnd. induction m as [|[k0 v0] m IH]; cbn.
    + repeat constructor. exact Hv.
    + inversion Hall; subst. destruct (String.eqb k0 k); constructor; auto.
Qed.

Lemma registry_ok_delete (k : string) (m : Registry) :
  registry_ok m -> registry_ok (Registry.delete k m).
Proof.
  intros [Hnd Hall]. unfold Registry.delete. split.
  - induction m as [|[k0 v0] m IH]; cbn; [constructor|].
    inversion Hnd as [|x xs Hnotin Hnd']; subst.
    inversion Hall; subst.
    destruct (String.eqb k0 k); cbn; [auto|].
    constructor; [|auto]. intros Hin. apply Hnotin.
    apply in_map_iff in Hin. destruct Hin as (kv & Hk & Hin).
    apply filter_In in Hin. apply in_map_iff. exists kv. tauto.
  - apply Forall_forall. intros kv Hin. apply filter_In in Hin.
    rewrite Forall_forall in Hall. apply Hall. tauto.
Qed.

Lemma disconnect_loop_first (entries : list (string * string))
    (socket_id : string) (m : Registry) :
  Registry.disconnect_loop entries socket_id m
  = match first_mapped socket_id entries with
    | Some k => Registry.delete k m
    | None => m
    end.
Proof.
  unfold first_mapped.
  induction entries as [|[k v] entries IH]; cbn; [reflexivity|].
  destruct (String.eqb v socket_id); [reflexivity|exact IH].
Qed.

Lemma first_mapped_some (socket_id k : string) (m : Registry) :
  first_mapped socket_id m = Some k -> In (k, socket_id) m.
Proof.
  unfold first_mapped. destruct (find _ m) as [[k0 v0]|] eqn:E; [|discriminate].
  cbn. intros [= ->]. apply find_some in E. destruct E as [Hin Hv].
  cbn in Hv. apply String.eqb_eq in Hv. subst. exact Hin.
Qed.

Lemma first_mapped_none (socket_id k : string) (m : Registry) :
  first_mapped socket_id m = None -> Registry.get k m <> Some socket_id.
Proof.
  unfold first_mapped. destruct (find _ m) eqn:E; [discriminate|].
  intros _ Hget. apply get_in in Hget.
  pose proof (find_none _ _ E _ Hget) as H. cbn in H.
  rewrite String.eqb_refl in H. discriminate.
Qed.

(* ================================================================== *)
(** ** Properties C1 to C10 *)

(** C1 (as amended): no handler checks for an open ticket.  The predicate
    "at most one ticket of each student is 'pending' or 'assigned'" is kept
    by CompleteRemedial, by a check-in that does not fail the gate, by a
    failing check-in of a student without open ticket and by an assignment
    that names no closed ticket, hence in every state reached through such
    operations; a failing check-in always appends one more 'pending' ticket
    for its student, whether or not one is open already. *)
Theorem single_open_ticket :
  (forall dep env op w,
     at_most_one_open (db w) ->
     single_ticket_guard dep env op w ->
     at_most_one_open (db (snd (handle dep env op w)))) /\
  (forall dep checked reqs,
     guarded_run dep reqs (initial_world dep checked) ->
     at_most_one_open (db (run dep reqs (initial_world dep checked)))) /\
  (forall dep env body w,
     verdict (fst (handle dep env (SubmitCheckIn body) w)) = Some false ->
     exists student_id ticket,
       c_student_id body = Some student_id /\
       interventions (db (snd (handle dep env (SubmitCheckIn body) w)))
         = interventions (db w) ++ [ticket] /\
       i_student_id ticket = student_id /\ i_status ticket = pending /\
       List.length
         (open_tickets student_id
            (db (snd (handle dep env (SubmitCheckIn body) w))))
       = S (List.length (open_tickets student_id (db w)))).
Proof.
  assert (Hstep : forall dep env op w,
     at_most_one_open (db w) ->
     single_ticket_guard dep env op w ->
     at_most_one_open (db (snd (handle dep env op w)))).
  { intros dep env [body|body|body] w Hinv Hguard sid.
    - destruct (verdict (fst (handle dep env (SubmitCheckIn body) w)))
        as [[|]|] eqn:Hv.
      + unfold open_tickets. rewrite tickets_after_checkin by congruence.
        apply Hinv.
      + destruct (tickets_after_failed_checkin dep env body w Hv)
          as (student_id & Hsid & _ & Hopen).
        rewrite Hopen.
        destruct (String.eqb student_id sid) eqn:E.
        * apply String.eqb_eq in E. subst sid.
          rewrite (Hguard Hv student_id Hsid). cbn. lia.
        * rewrite app_nil_r. apply Hinv.
      + unfold open_tickets. rewrite tickets_after_checkin by congruence.
        apply Hinv.
    - destruct (assign_cases dep env body w)
        as [-> | (student_id & task & Hsid & ->)]; [apply Hinv|].
      rewrite open_after_assign; [apply Hinv|].
      intros t Hin Hm. exact (Hguard student_id t Hsid Hin Hm).
    - destruct (complete_cases dep env body w)
        as [-> | (student_id & Hsid & ->)]; [apply Hinv|].
      eapply Nat.le_trans; [apply open_after_complete|apply Hinv]. }
  split; [exact Hstep|]. split.
  - intros dep checked reqs.
    assert (Hinit : at_most_one_open (db (initial_world dep checked))).
    { intros sid. destruct dep; cbn; lia. }
    revert Hinit. generalize (initial_world dep checked).
    induction reqs as [|[env op] reqs IH]; intros w Hinv Hg; cbn.
    + exact Hinv.
    + destruct Hg as [Hg1 Hg2]. apply IH; [|exact Hg2].
      apply Hstep; assumption.
  - intros dep env body w Hv.
    destruct (tickets_after_failed_checkin dep env body w Hv)
      as (student_id & Hsid & Ht & Hopen).
    exists student_id, (new_ticket (now env) student_id
                          (init_db dep (now env) (db w))).
    split; [exact Hsid|]. split; [exact Ht|]. do 2 (split; [reflexivity|]).
    rewrite Hopen, String.eqb_refl, length_app. cbn. lia.
Qed.

(** C1 (amended) at the first failing check-in of the sample student. *)
Lemma single_open_ticket_witness :
  at_most_one_open
    (db (run Express [(sample_env, SubmitCheckIn failing_body)]
           (initial_world Express true))).
Proof.
  apply (proj1 (proj2 single_open_ticket) Express true
           [(sample_env, SubmitCheckIn failing_body)]).
  cbn [guarded_run]. split; [|exact I].
  intros _ student_id Hsid. injection Hsid as <-. reflexivity.
Defined.

(** C1 as stated fails: two failing check-ins of the sample student lead to a
    reachable state in which the student has two 'pending' tickets. *)
Lemma two_pending_tickets :
  reachable Express
    (run Express [(sample_env, SubmitCheckIn failing_body);
                  (sample_env, SubmitCheckIn failing_body)]
       (initial_world Express true)) /\
  at_most_one_open
    (db (run Express [(sample_env, SubmitCheckIn failing_body)]
           (initial_world Express true))) /\
  map i_status
    (open_tickets "123"
       (db (run Express [(sample_env, SubmitCheckIn failing_body);
                         (sample_env, SubmitCheckIn failing_body)]
              (initial_world Express true))))
    = [pending; pending] /\
  ~ at_most_one_open
      (db (run Express [(sample_env, SubmitCheckIn failing_body);
                        (sample_env, SubmitCheckIn failing_body)]
             (initial_world Express true))).
Proof.
  split; [exists true; eexists; reflexivity|].
  split.
  { intros sid. unfold open_tickets.
    set (l := interventions _). vm_compute in l. subst l.
    cbn [filter i_student_id is_open i_status].
    destruct (String.eqb "123" sid); cbn; lia. }
  split; [reflexivity|].
  intros H. specialize (H "123"). vm_compute in H. lia.
Qed.
(** C2: an accepted check-in answers, and logs, the verdict
    (quiz_score > 7) AND (focus_minutes > 60) AND (tab_switches < 3) with
    strict comparisons: 7/60 fails, 8/61/2 passes, 3 tab switches fail; the
    verdict depends on the three figures only. *)
Theorem gate_verdict :
  (forall dep env body w,
     http_code (fst (handle dep env (SubmitCheckIn body) w)) = 200 ->
     exists q f log,
       c_quiz_score body = Some q /\ c_focus_minutes body = Some f /\
       verdict (fst (handle dep env (SubmitCheckIn body) w))
         = Some (passed q f (default 0 (c_tab_switches body))) /\
       daily_logs (db (snd (handle dep env (SubmitCheckIn body) w)))
         = daily_logs (db w) ++ [log] /\
       l_passed log = passed q f (default 0 (c_tab_switches body)) /\
       (passed q f (default 0 (c_tab_switches body)) = true
        <-> q > 7 /\ f > 60 /\ default 0 (c_tab_switches body) < 3)) /\
  (forall t, passed 7 60 t = false) /\
  passed 8 61 2 = true /\
  (forall q f, passed q f 3 = false) /\
  (forall dep1 dep2 env1 env2 body1 body2 w1 w2,
     c_quiz_score body1 = c_quiz_score body2 ->
     c_focus_minutes body1 = c_focus_minutes body2 ->
     default 0 (c_tab_switches body1) = default 0 (c_tab_switches body2) ->
     http_code (fst (handle dep1 env1 (SubmitCheckIn body1) w1)) = 200 ->
     http_code (fst (handle dep2 env2 (SubmitCheckIn body2) w2)) = 200 ->
     verdict (fst (handle dep1 env1 (SubmitCheckIn body1) w1))
     = verdict (fst (handle dep2 env2 (SubmitCheckIn body2) w2))).
Proof.
  assert (Hacc : forall dep env body w,
     http_code (fst (handle dep env (SubmitCheckIn body) w)) = 200 ->
     exists q f log,
       c_quiz_score body = Some q /\ c_focus_minutes body = Some f /\
       verdict (fst (handle dep env (SubmitCheckIn body) w))
         = Some (passed q f (default 0 (c_tab_switches body))) /\
       daily_logs (db (snd (handle dep env (SubmitCheckIn body) w)))
         = daily_logs (db w) ++ [log] /\
       l_passed log = passed q f (default 0 (c_tab_switches body))).
  { intros dep env body w Hcode.
    destruct (tables_after_init dep (now env) (db w)) as (Hl & _).
    destruct (checkin_cases dep env body w).
    - rewrite Hr in Hcode; cbn in Hcode. lia.
    - exists q, f, (new_log (now env) student_id q f
                      (default 0 (c_tab_switches body))
                      (init_db dep (now env) (db w))).
      rewrite Hr, Hdb.
      destruct (tables_after_pass (now env) student_id q f _ _ Hacc Hpass)
        as [-> _].
      rewrite Hl, Hpass. cbn. rewrite Hpass. auto.
    - exists q, f, (new_log (now env) student_id q f
                      (default 0 (c_tab_switches body))
                      (init_db dep (now env) (db w))).
      rewrite Hr, Hdb.
      destruct (tables_after_fail (now env) student_id q f _ _ Hacc Hpass)
        as [-> _].
      rewrite Hl, Hpass. cbn. rewrite Hpass. auto. }
  split; [|split; [|split; [|split]]].
  - intros dep env body w Hcode.
    destruct (Hacc dep env body w Hcode) as (q & f & log & H1 & H2 & H3 & H4 & H5).
    exists q, f, log. do 5 (split; [assumption|]). apply passed_iff.
  - intros t. reflexivity.
  - reflexivity.
  - intros q f. unfold passed. cbn. apply andb_false_r.
  - intros dep1 dep2 env1 env2 body1 body2 w1 w2 Eq Ef Et Hc1 Hc2.
    destruct (Hacc _ _ _ _ Hc1) as (q1 & f1 & _ & Hq1 & Hf1 & -> & _).
    destruct (Hacc _ _ _ _ Hc2) as (q2 & f2 & _ & Hq2 & Hf2 & -> & _).
    congruence.
Qed.

(** C2 at a failing submission of the sample student. *)
Lemma gate_verdict_witness :
  exists q f log,
    Some 5 = Some q /\ Some 30 = Some f /\
    verdict (fst (handle Express sample_env
                    (SubmitCheckIn (mkCheckinBody (Some "123") (Some 5) (Some 30) (Some 1)))
                    (initial_world Express true)))
      = Some (passed q f 1) /\
    daily_logs (db (snd (handle Express sample_env
                    (SubmitCheckIn (mkCheckinBody (Some "123") (Some 5) (Some 30) (Some 1)))
                    (initial_world Express true))))
      = [] ++ [log] /\
    l_passed log = passed q f 1 /\
    (passed q f 1 = true <-> q > 7 /\ f > 60 /\ 1 < 3).
Proof.
  apply (proj1 gate_verdict Express sample_env
           (mkCheckinBody (Some "123") (Some 5) (Some 30) (Some 1))
           (initial_world Express true)).
  reflexivity.
Defined.










(** C6 at its failing input: on the tables created by api/daily-checkin.js,
    POST {student_id: '123', quiz_score: 11, focus_minutes: 90} is evaluated,
    logged and answered 'On Track'; quiz_score -1 opens a ticket; on tables
    that carry the CHECK constraints the same request is answered 500, not
    400, and has consumed a log id. *)
Theorem serverless_checkin_out_of_range :
  handle Serverless sample_env
    (SubmitCheckIn (mkCheckinBody (Some "123") (Some 11) (Some 90) None))
    (initial_world Serverless false)
  = (CheckinOk "On Track" (mkDailyLog 1 "123" 11 90 0 true 0 1000) true None,
     mkWorld
       (mkDatabase
          [mkStudent 1 "123" "Test Student" (Some "student@test.com")
             on_track 1000 1000]
          [mkDailyLog 1 "123" 11 90 0 true 0 1000] [] 2 2 1 false)
       [] []) /\
  (exists log ticket,
     handle Serverless env_no_webhook
       (SubmitCheckIn (mkCheckinBody (Some "123") (Some (-1)) (Some 90) None))
       (initial_world Serverless false)
     = (CheckinOk "Pending Mentor Review" log false (Some 1),
        mkWorld
          (mkDatabase
             [mkStudent 1 "123" "Test Student" (Some "student@test.com")
                needs_intervention 1000 1000]
             [log] [ticket] 2 2 2 false)
          [] []) /\
     l_quiz_score log = -1 /\ i_status ticket = pending) /\
  (let r := handle Serverless sample_env
              (SubmitCheckIn (mkCheckinBody (Some "123") (Some 11) (Some 90) None))
              (initial_world Serverless true) in
   http_code (fst r) = 500 /\ daily_logs_id_seq (db (snd r)) = 2).
Proof.
  split; [reflexivity|]. split; [|split; reflexivity].
  eexists. eexists. split; [reflexivity|]. split; reflexivity.
Qed.

(** C7: when the webhook call of a failing check-in is made and rejects, the
    check-in is still answered 200 with the ticket's id, the student stays
    needs_intervention, the log and the 'pending' ticket stay written, and
    response and store are those of the same request with the gateway up. *)
Theorem gateway_failure_not_fatal (dep : Deployment) (env : Env)
    (body : CheckinBody) (w : World) :
  gateway_up env = false ->
  escalations (trace (snd (handle dep env (SubmitCheckIn body) w)))
    <> escalations (trace w) ->
  exists student_id log ticket,
    c_student_id body = Some student_id /\
    fst (handle dep env (SubmitCheckIn body) w)
      = CheckinOk "Pending Mentor Review" log false (Some (i_id ticket)) /\
    http_code (fst (handle dep env (SubmitCheckIn body) w)) = 200 /\
    student_status student_id (db (snd (handle dep env (SubmitCheckIn body) w)))
      = Some needs_intervention /\
    daily_logs (db (snd (handle dep env (SubmitCheckIn body) w)))
      = daily_logs (db w) ++ [log] /\
    interventions (db (snd (handle dep env (SubmitCheckIn body) w)))
      = interventions (db w) ++ [ticket] /\
    i_student_id ticket = student_id /\ i_status ticket = pending /\
    fst (handle dep env (SubmitCheckIn body) w)
      = fst (handle dep (with_gateway env true) (SubmitCheckIn body) w) /\
    db (snd (handle dep env (SubmitCheckIn body) w))
      = db (snd (handle dep (with_gateway env true) (SubmitCheckIn body) w)).
Proof.
  intros Hdown Hcall.
  assert (Henv : env = with_gateway env false).
  { destruct env; cbn in *; subst; reflexivity. }
  destruct (gateway_irrelevant dep env (SubmitCheckIn body) w false true)
    as (Hr2 & Hd2 & _). rewrite <- Henv in Hr2, Hd2.
  destruct (tables_after_init dep (now env) (db w)) as (Hl & Hi & _).
  destruct (checkin_cases dep env body w)
    as [code msg _ _ _ _ _ Hposts | sid q f _ _ _ _ _ _ _ Hposts
       | sid q f Hsid Hq Hf Hfail Hacc Hr Hdb student Hstudent _].
  - congruence.
  - congruence.
  - destruct (tables_after_fail (now env) sid q f
                (default 0 (c_tab_switches body)) _ Hacc Hfail)
      as [Hlogs Htickets].
    exists sid,
           (new_log (now env) sid q f (default 0 (c_tab_switches body))
              (init_db dep (now env) (db w))),
           (new_ticket (now env) sid (init_db dep (now env) (db w))).
    split; [exact Hsid|]. split; [exact Hr|].
    split; [rewrite Hr; reflexivity|].
    split.
    { rewrite Hdb, status_after_fail, String.eqb_refl.
      unfold student_status.
      destruct (filter _ (students (init_db dep (now env) (db w))));
        [discriminate|reflexivity]. }
    split; [rewrite Hdb, Hlogs, Hl; reflexivity|].
    split; [rewrite Hdb, Htickets, Hi; reflexivity|].
    do 2 (split; [reflexivity|]). split; assumption.
Qed.

(** C7 at submit(5, 30, 1) of the sample student with the gateway down. *)
Lemma gateway_failure_witness :
  exists log ticket,
    fst (handle Express env_gateway_down (SubmitCheckIn failing_body)
           (initial_world Express true))
      = CheckinOk "Pending Mentor Review" log false (Some (i_id ticket)) /\
    student_status "123"
      (db (snd (handle Express env_gateway_down (SubmitCheckIn failing_body)
                  (initial_world Express true))))
      = Some needs_intervention /\
    interventions (db (snd (handle Express env_gateway_down
                              (SubmitCheckIn failing_body)
                              (initial_world Express true))))
      = [] ++ [ticket] /\
    i_status ticket = pending.
Proof.
  destruct (gateway_failure_not_fatal Express env_gateway_down failing_body
              (initial_world Express true) eq_refl
              ltac:(vm_compute; discriminate))
    as (sid & log & ticket & Hsid & Hr & _ & Hst & _ & Ht & _ & Hp & _).
  injection Hsid as <-.
  exists log, ticket. auto.
Defined.

(** C8 (as amended): notifyStudent emits the event to the socket mapped for
    the student exactly when one is mapped, and otherwise changes nothing (no
    queue, no retry); register overwrites the student's mapping and touches no
    other; disconnect removes the mapping of the first identity, in the map's
    insertion order, that is mapped to the socket, and stops: it does nothing
    when none is, and leaves no mapping to the socket when at most one
    identity was mapped to it. *)
Theorem dispatcher (w : World) :
  registry_ok (connectedStudents w) ->
  (forall studentId event data,
     match Registry.get studentId (connectedStudents w) with
     | Some socketId =>
         Registry.notifyStudent studentId event data w
         = (tt, log_effect w (Emit socketId event data))
     | None => Registry.notifyStudent studentId event data w = (tt, w)
     end) /\
  (forall socket_id studentId,
     Registry.get studentId
       (connectedStudents (snd (Registry.on_register socket_id studentId w)))
       = Some socket_id /\
     (forall k, k <> studentId ->
        Registry.get k
          (connectedStudents (snd (Registry.on_register socket_id studentId w)))
        = Registry.get k (connectedStudents w)) /\
     db (snd (Registry.on_register socket_id studentId w)) = db w /\
     trace (snd (Registry.on_register socket_id studentId w)) = trace w /\
     (truthy socket_id = true ->
      registry_ok
        (connectedStudents (snd (Registry.on_register socket_id studentId w))))) /\
  (forall socket_id,
     db (snd (Registry.on_disconnect socket_id w)) = db w /\
     trace (snd (Registry.on_disconnect socket_id w)) = trace w /\
     registry_ok (connectedStudents (snd (Registry.on_disconnect socket_id w))) /\
     match first_mapped socket_id (connectedStudents w) with
     | Some k =>
         Registry.get k (connectedStudents w) = Some socket_id /\
         Registry.get k
           (connectedStudents (snd (Registry.on_disconnect socket_id w)))
           = None /\
         forall k', k' <> k ->
           Registry.get k'
             (connectedStudents (snd (Registry.on_disconnect socket_id w)))
           = Registry.get k' (connectedStudents w)
     | None =>
         (forall k, Registry.get k (connectedStudents w) <> Some socket_id) /\
         connectedStudents (snd (Registry.on_disconnect socket_id w))
           = connectedStudents w
     end /\
     ((forall k1 k2,
         Registry.get k1 (connectedStudents w) = Some socket_id ->
         Registry.get k2 (connectedStudents w) = Some socket_id -> k1 = k2) ->
      forall k,
        Registry.get k
          (connectedStudents (snd (Registry.on_disconnect socket_id w)))
        <> Some socket_id)).
Proof.
  destruct w as [d m tr]; cbn. intros Hok. split; [|split].
  - intros studentId event data. unfold Registry.notifyStudent; cbn.
    destruct (Registry.get studentId m) as [socketId|] eqn:E; [|reflexivity].
    apply get_in in E. destruct Hok as [_ Hall].
    rewrite Forall_forall in Hall. specialize (Hall _ E). cbn in Hall.
    rewrite Hall. reflexivity.
  - intros socket_id studentId.
    split; [apply get_set_same|]. split; [intros; apply get_set_other; auto|].
    do 2 (split; [reflexivity|]). intros Hs. apply registry_ok_set; assumption.
  - intros socket_id. do 2 (split; [reflexivity|]).
    rewrite disconnect_loop_first.
    destruct (first_mapped socket_id m) as [k|] eqn:E.
    + pose proof (in_get _ _ _ (proj1 Hok) (first_mapped_some _ _ _ E)) as Hk.
      split; [apply registry_ok_delete, Hok|]. split.
      * split; [exact Hk|]. split; [apply get_delete_same|].
        intros; apply get_delete_other; auto.
      * intros Huniq k0 Hget.
        destruct (String.eqb k0 k) eqn:Ek.
        -- apply String.eqb_eq in Ek. subst k0.
           rewrite get_delete_same in Hget. discriminate.
        -- apply String.eqb_neq in Ek.
           rewrite get_delete_other in Hget by exact Ek.
           apply Ek. apply Huniq; assumption.
    + split; [exact Hok|]. split.
      * split; [|reflexivity]. intros k. eapply first_mapped_none; eauto.
      * intros _ k. eapply first_mapped_none; eauto.
Qed.

(** C8 (amended) on two students connected on two sockets: the second one
    disconnects. *)
Lemma dispatcher_witness :
  Registry.notifyStudent "123" "status_update" (StatusUpdate active)
    sample_registry_world
  = (tt, log_effect sample_registry_world
           (Emit "sockA" "status_update" (StatusUpdate active))) /\
  connectedStudents (snd (Registry.on_disconnect "sockB" sample_registry_world))
  = [("123", "sockA")] /\
  forall k,
    Registry.get k
      (connectedStudents (snd (Registry.on_disconnect "sockB" sample_registry_world)))
    <> Some "sockB".
Proof.
  assert (Hok : registry_ok (connectedStudents sample_registry_world)).
  { split; cbn.
    - constructor; [cbn; intros [H|[]]; discriminate H|].
      constructor; [intros []|constructor].
    - repeat constructor. }
  destruct (dispatcher sample_registry_world Hok) as (Hpub & _ & Hdis).
  split; [exact (Hpub "123" "status_update" (StatusUpdate active))|].
  split; [reflexivity|].
  destruct (Hdis "sockB") as (_ & _ & _ & _ & Hnone).
  apply Hnone. intros k1 k2 H1 H2.
  unfold sample_registry_world in H1, H2.
  cbn [Registry.get connectedStudents] in H1, H2.
  destruct (String.eqb "123" k1); [discriminate|].
  destruct (String.eqb "123" k2); [discriminate|].
  destruct (String.eqb "456" k1) eqn:E1; [|discriminate].
  destruct (String.eqb "456" k2) eqn:E2; [|discriminate].
  apply String.eqb_eq in E1, E2. congruence.
Defined.

(** C8 as stated fails: when two identities registered on one socket, its
    disconnection removes the first mapping only; the second identity stays
    mapped to the closed socket and events published for it are emitted
    there. *)
Lemma disconnect_leaves_mapping :
  let w2 := snd (Registry.on_register "sockA" "456"
                   (snd (Registry.on_register "sockA" "123"
                           (initial_world Express true)))) in
  let w3 := snd (Registry.on_disconnect "sockA" w2) in
  connectedStudents w2 = [("123", "sockA"); ("456", "sockA")] /\
  connectedStudents w3 = [("456", "sockA")] /\
  Registry.get "456" (connectedStudents w3) = Some "sockA" /\
  deliveries
    (trace (snd (Registry.notifyStudent "456" "status_update"
                   (StatusUpdate active) w3)))
  = [("sockA", "status_update", StatusUpdate active)].
Proof. vm_compute. repeat split; reflexivity. Qed.

(** C9 (as amended): a ticket is created with expires_at = creation time +
    12 hours, but no handler reads the deadline or writes 'expired': a ticket
    that is 'expired' after a run was there, identical, before it (none is,
    starting from the initial store), and as long as no operation is
    addressed to a student, the student's tickets and status stay exactly as
    they were, whatever the clock of the requests that arrive meanwhile. *)
Theorem no_expiry_sweep :
  (forall dep env body w,
     verdict (fst (handle dep env (SubmitCheckIn body) w)) = Some false ->
     exists ticket,
       interventions (db (snd (handle dep env (SubmitCheckIn body) w)))
         = interventions (db w) ++ [ticket] /\
       i_status ticket = pending /\ i_created_at ticket = now env /\
       i_expires_at ticket = Some (now env + 12 * 3600)) /\
  (forall dep reqs w t,
     In t (interventions (db (run dep reqs w))) ->
     i_status t = expired ->
     In t (interventions (db w))) /\
  (forall dep checked reqs t,
     In t (interventions (db (run dep reqs (initial_world dep checked)))) ->
     i_status t <> expired) /\
  (forall dep reqs w student_id,
     student_status student_id (db w) <> None ->
     Forall (fun r => op_student (snd r) <> Some student_id) reqs ->
     tickets_of student_id (db (run dep reqs w))
       = tickets_of student_id (db w) /\
     student_status student_id (db (run dep reqs w))
       = student_status student_id (db w)).
Proof.
  assert (Hrun : forall dep reqs w t,
     In t (interventions (db (run dep reqs w))) ->
     i_status t = expired ->
     In t (interventions (db w))).
  { intros dep reqs. induction reqs as [|[env op] reqs IH]; intros w t; cbn.
    - auto.
    - intros Hin Hexp. eapply expired_step; eauto. }
  split; [|split; [exact Hrun|split]].
  - intros dep env body w Hv.
    destruct (tickets_after_failed_checkin dep env body w Hv)
      as (sid & _ & Ht & _).
    eexists. split; [exact Ht|]. repeat split; reflexivity.
  - intros dep checked reqs t Hin Hexp.
    apply (Hrun dep reqs _ t Hin) in Hexp. destruct dep; exact Hexp.
  - intros dep reqs. induction reqs as [|[env op] reqs IH];
      intros w sid Hex Hall; cbn.
    + auto.
    + inversion Hall as [|r rs Hop Hrest]; subst. cbn in Hop.
      destruct (untouched_step dep env op w sid Hop Hex) as [Ht Hs].
      destruct (IH (snd (handle dep env op w)) sid) as [Ht' Hs'];
        [rewrite Hs; exact Hex|exact Hrest|].
      rewrite Ht', Hs'. auto.
Qed.

(** C9 (amended) on the ticket of the sample student while a stranger's
    request arrives long after the deadline. *)
Lemma no_expiry_sweep_witness :
  tickets_of "123"
    (db (run Express [(late_env, SubmitCheckIn stranger_body)]
           (run Express [(sample_env, SubmitCheckIn failing_body)]
              (initial_world Express true))))
  = tickets_of "123"
      (db (run Express [(sample_env, SubmitCheckIn failing_body)]
             (initial_world Express true))) /\
  student_status "123"
    (db (run Express [(late_env, SubmitCheckIn stranger_body)]
           (run Express [(sample_env, SubmitCheckIn failing_body)]
              (initial_world Express true))))
  = student_status "123"
      (db (run Express [(sample_env, SubmitCheckIn failing_body)]
             (initial_world Express true))).
Proof.
  apply (proj2 (proj2 (proj2 no_expiry_sweep)) Express
           [(late_env, SubmitCheckIn stranger_body)]
           (run Express [(sample_env, SubmitCheckIn failing_body)]
              (initial_world Express true)) "123").
  - vm_compute. discriminate.
  - constructor; [|constructor]. cbn. discriminate.
Defined.

(** C9 as stated fails: the ticket created at time 1000 has its deadline at
    44200; in the state after a request handled at time 1000000 it is still
    'pending' and its student still needs_intervention. *)
Lemma ticket_pending_after_deadline :
  let w := run Express [(sample_env, SubmitCheckIn failing_body);
                        (late_env, SubmitCheckIn stranger_body)]
             (initial_world Express true) in
  option_map i_status (find_intervention "123" 1 (db w)) = Some pending /\
  option_map i_created_at (find_intervention "123" 1 (db w)) = Some 1000 /\
  option_map i_expires_at (find_intervention "123" 1 (db w))
    = Some (Some 44200) /\
  44200 < now late_env /\
  student_status "123" (db w) = Some needs_intervention.
Proof. vm_compute. repeat split; reflexivity. Qed.



(* ================================================================== *)
(** ** Lemmas on the read-only endpoints and on the store *)

(** *** ORDER BY ... DESC *)

Section OrderBy.

Variable A : Type.
Variable key : A -> Z.

Lemma insert_desc_perm (x : A) (l : list A) :
  Permutation (SqlRead.insert_desc key x l) (x :: l).
Proof.
  induction l as [|y l IH]; cbn; [reflexivity|].
  destruct (key y <=? key x); [reflexivity|].
  rewrite IH. apply perm_swap.
Qed.

Lemma order_by_desc_perm (l : list A) :
  Permutation (SqlRead.order_by_desc key l) l.
Proof.
  induction l as [|x l IH]; cbn; [reflexivity|].
  rewrite insert_desc_perm. constructor. exact IH.
Qed.

Lemma order_by_desc_in (x : A) (l : list A) :
  In x (SqlRead.order_by_desc key l) <-> In x l.
Proof.
  split; apply Permutation_in;
    [|symmetry]; apply order_by_desc_perm.
Qed.

Lemma in_firstn (n : nat) (l : list A) (x : A) :
  In x (firstn n l) -> In x l.
Proof.
  intros H. rewrite <- (firstn_skipn n l). apply in_or_app. left. exact H.
Qed.

Lemma in_skipn (n : nat) (l : list A) (x : A) :
  In x (skipn n l) -> In x l.
Proof.
  intros H. rewrite <- (firstn_skipn n l). apply in_or_app. right. exact H.
Qed.

Lemma insert_desc_sorted (x : A) (l : list A) :
  StronglySorted (newest_first key) l ->
  StronglySorted (newest_first key) (SqlRead.insert_desc key x l).
Proof.
  induction 1 as [|y l Hs IH Hall]; cbn.
  - constructor; constructor.
  - destruct (key y <=? key x) eqn:E.
    + apply Z.leb_le in E. constructor.
      * constructor; assumption.
      * constructor; [exact E|].
        rewrite Forall_forall in *. intros z Hz.
        unfold newest_first in *. specialize (Hall z Hz). lia.
    + apply Z.leb_gt in E. constructor; [exact IH|].
      rewrite Forall_forall in *. intros z Hz.
      apply (Permutation_in _ (insert_desc_perm x l)) in Hz.
      destruct Hz as [<-|Hz]; [unfold newest_first; lia|auto].
Qed.

Lemma order_by_desc_sorted (l : list A) :
  StronglySorted (newest_first key) (SqlRead.order_by_desc key l).
Proof.
  induction l as [|x l IH]; cbn; [constructor|].
  apply insert_desc_sorted, IH.
Qed.

Lemma sorted_firstn (n : nat) (l : list A) :
  StronglySorted (newest_first key) l -> StronglySorted (newest_first key) (firstn n l).
Proof.
  intros Hs. revert n. induction Hs as [|y l Hs IH Hall]; intros [|n]; cbn;
    try constructor; auto.
  rewrite Forall_forall in *. intros z Hz. apply Hall.
  eapply in_firstn. exact Hz.
Qed.

(** LIMIT n keeps rows at least as new as every row it leaves out. *)
Lemma sorted_limit (n : nat) (l : list A) (x y : A) :
  StronglySorted (newest_first key) l ->
  In x (firstn n l) -> In y (skipn n l) -> key y <= key x.
Proof.
  intros Hs. revert n. induction Hs as [|z l Hs IH Hall]; intros [|n]; cbn;
    try tauto.
  intros [<-|Hx] Hy.
  - rewrite Forall_forall in Hall. apply Hall.
    eapply in_skipn. exact Hy.
  - eauto.
Qed.

(** LIMIT 1: the newest row, if there is a row. *)
Lemma newest_row (l : list A) :
  match hd_error (firstn 1 (SqlRead.order_by_desc key l)) with
  | Some x => In x l /\ forall y, In y l -> key y <= key x
  | None => l = []
  end.
Proof.
  pose proof (order_by_desc_sorted l) as Hs.
  pose proof (order_by_desc_perm l) as Hp.
  destruct (SqlRead.order_by_desc key l) as [|x s]; cbn.
  - apply Permutation_nil. exact Hp.
  - split.
    + apply (Permutation_in _ Hp). left. reflexivity.
    + intros y Hy. symmetry in Hp. apply (Permutation_in _ Hp) in Hy.
      destruct Hy as [<-|Hy]; [lia|].
      inversion Hs as [|? ? _ Hall]; subst.
      rewrite Forall_forall in Hall. exact (Hall y Hy).
Qed.

End OrderBy.

(** *** GET /api/student/:studentId *)

(** The answer and the world after the lookup, in closed form. *)
Lemma read_student_result (dep : Deployment) (env : Env) (studentId : string)
    (w : World) :
  read_student dep env studentId w
  = (match filter (fun s => String.eqb (s_student_id s) studentId)
             (students (init_db dep (now env) (db w))) with
     | [] => ReadError 404 "Student not found"
     | student :: _ =>
         StudentOk student
           (if is_locked (s_status student)
            then hd_error
                   (firstn 1 (SqlRead.order_by_desc i_created_at
                                (open_tickets studentId (db w))))
            else None)
           (now env)
     end,
     mkWorld (init_db dep (now env) (db w)) (connectedStudents w) (trace w)).
Proof.
  destruct w as [d m tr].
  destruct dep; unfold read_student, ServerRead.get_student,
    ApiRead.get_student, student_lookup, Api.initDatabase, try_catch, bind,
    ret, lift, query, Sql.select_student, Sql.insert_sample_student,
    SqlRead.select_current_intervention, open_tickets, init_db, set_db; cbn.
  - destruct (filter _ (students d)) as [|s l]; [reflexivity|].
    destruct (is_locked (s_status s)); reflexivity.
  - destruct (existsb _ (students d)); cbn;
      (destruct (filter _ _) as [|s l]; [reflexivity|]);
      destruct (is_locked (s_status s)); reflexivity.
Qed.

Lemma filter_owner_status (sid : string) (d : Database) :
  student_status sid d
  = option_map s_status
      (hd_error (filter (fun s => String.eqb (s_student_id s) sid) (students d))).
Proof. unfold student_status. destruct (filter _ _); reflexivity. Qed.

(** After initDatabase of the serverless handlers the sample student is
    there. *)
Lemma sample_present (now : Z) (d : Database) :
  filter (fun s => String.eqb (s_student_id s) "123")
         (students (init_db Serverless now d)) <> [].
Proof.
  unfold init_db, Sql.insert_sample_student; cbn.
  destruct (existsb _ (students d)) eqn:E.
  - apply existsb_exists in E. destruct E as (s & Hin & Hs).
    intros Hnil.
    assert (Hf : In s (filter (fun s => String.eqb (s_student_id s) "123")
                         (students d))) by (apply filter_In; auto).
    rewrite Hnil in Hf. exact Hf.
  - rewrite filter_app. cbn. intros H. apply app_eq_nil in H.
    destruct H as [_ H]. discriminate.
Qed.

(** *** The two paths of an accepted check-in *)





(** *** Events pushed by the handlers *)

Lemma deliveries_app (t1 t2 : list Effect) :
  deliveries (t1 ++ t2) = deliveries t1 ++ deliveries t2.
Proof. unfold deliveries. apply flat_map_app. Qed.

Ltac close_push :=
  cbn; unfold push_to; cbn;
  repeat match goal with
         | H : Registry.get _ _ = _ |- _ => rewrite H
         | H : truthy _ = _ |- _ => rewrite H
         end;
  rewrite ?deliveries_app; cbn; rewrite ?app_nil_r; reflexivity.

Lemma checkin_deliveries (dep : Deployment) (env : Env) (body : CheckinBody)
    (w : World) :
  deliveries (trace (snd (handle dep env (SubmitCheckIn body) w)))
  = deliveries (trace w)
    ++ match dep, verdict (fst (handle dep env (SubmitCheckIn body) w)),
             c_student_id body with
       | Express, Some v, Some student_id =>
           push_to (connectedStudents w) student_id "status_update"
             (StatusUpdate (if v then on_track else needs_intervention))
       | _, _, _ => []
       end.
Proof.
  destruct body as [sid q f t], w as [d m tr].
  destruct dep; unfold_handlers; cbn; branches; close_push.
Qed.


Lemma complete_deliveries (dep : Deployment) (env : Env) (body : CompleteBody)
    (w : World) :
  deliveries (trace (snd (handle dep env (CompleteRemedial body) w)))
  = deliveries (trace w)
    ++ match dep, fst (handle dep env (CompleteRemedial body) w),
             r_student_id body with
       | Express, CompleteOk _, Some student_id =>
           push_to (connectedStudents w) student_id "status_update"
             (StatusUpdate active)
       | _, _, _ => []
       end.
Proof.
  destruct body as [sid id], w as [d m tr].
  destruct dep; unfold_handlers; cbn; branches; close_push.
Qed.

(** The trace of a check-in that fails the gate on the Express server. *)
Lemma express_fail_trace (env : Env) (body : CheckinBody) (w : World)
    (student : Student) (rest : list Student) (sid : string) (q f : Z) :
  c_student_id body = Some sid ->
  c_quiz_score body = Some q ->
  c_focus_minutes body = Some f ->
  verdict (fst (handle Express env (SubmitCheckIn body) w)) = Some false ->
  filter (fun s => String.eqb (s_student_id s) sid) (students (db w))
    = student :: rest ->
  trace (snd (handle Express env (SubmitCheckIn body) w))
  = trace w
    ++ webhook_effects env
         (mkWebhookPayload sid (s_name student) (s_email student) q f
            (default 0 (c_tab_switches body)) (interventions_id_seq (db w))
            (now env))
    ++ emit_all (push_to (connectedStudents w) sid "status_update"
                   (StatusUpdate needs_intervention)).
Proof.
  destruct body as [sid' q' f' t], w as [d m tr]; cbn.
  intros -> -> -> Hv Hf. revert Hv.
  unfold webhook_effects, webhook_url, emit_all, push_to.
  unfold_handlers; cbn.
  repeat (rewrite ?Hf; branch; cbn); rewrite ?Hf; cbn;
    intros Hv; try discriminate;
    repeat match goal with
           | H : Some _ = Some _ |- _ => injection H as H; subst
           | H : Some _ = None |- _ => discriminate H
           | H : None = Some _ |- _ => discriminate H
           end;
    repeat match goal with
           | H : truthy _ = _ |- _ => rewrite H
           end;
    rewrite <- ?app_assoc; cbn; rewrite ?app_nil_r; try reflexivity;
    try congruence.
Qed.

(** *** Sequences and ids *)

Lemma seqs_after_pass (now : Z) (sid : string) (q f t : Z) (d : Database) :
  log_accepted d q f = true ->
  daily_logs_id_seq (checkin_pass_db now sid q f t d) = daily_logs_id_seq d + 1 /\
  interventions_id_seq (checkin_pass_db now sid q f t d)
    = interventions_id_seq d.
Proof.
  unfold log_accepted, checkin_pass_db, Sql.insert_daily_log,
    Sql.update_student_status.
  intros Hacc. destruct (daily_logs_checked d), (Sql.daily_logs_check q f);
    cbn in *; try discriminate; auto.
Qed.

Lemma seqs_after_fail (now : Z) (sid : string) (q f t : Z) (d : Database) :
  log_accepted d q f = true ->
  daily_logs_id_seq (checkin_fail_db now sid q f t d) = daily_logs_id_seq d + 1 /\
  interventions_id_seq (checkin_fail_db now sid q f t d)
    = interventions_id_seq d + 1.
Proof.
  unfold log_accepted, checkin_fail_db, Sql.insert_daily_log,
    Sql.update_student_status, Sql.insert_intervention.
  intros Hacc. destruct (daily_logs_checked d), (Sql.daily_logs_check q f);
    cbn in *; try discriminate; auto.
Qed.

(** The sequences never go back. *)
Lemma seq_monotone (dep : Deployment) (env : Env) (op : Operation) (w : World) :
  daily_logs_id_seq (db w)
    <= daily_logs_id_seq (db (snd (handle dep env op w))) /\
  interventions_id_seq (db w)
    <= interventions_id_seq (db (snd (handle dep env op w))).
Proof.
  destruct w as [d m tr], op as [[sid q f t]|[sid task mail id]|[sid id]];
    destruct dep; unfold_handlers; cbn; branches; lia.
Qed.

Lemma nodup_snoc (ids : list Z) (x : Z) :
  NoDup ids -> (forall y, In y ids -> y < x) -> NoDup (ids ++ [x]).
Proof.
  intros Hnd Hlt. apply NoDup_app; [exact Hnd|repeat constructor; auto|].
  intros y Hy [<-|[]]. specialize (Hlt _ Hy). lia.
Qed.

Lemma ids_fresh_step (dep : Deployment) (env : Env) (op : Operation)
    (w : World) :
  ids_fresh (db w) -> ids_fresh (db (snd (handle dep env op w))).
Proof.
  intros (Hln & Hlb & Htn & Htb).
  destruct (seq_monotone dep env op w) as [Hls Hts].
  destruct op as [body|body|body].
  - destruct (tables_after_init dep (now env) (db w))
      as (Hl & Hi & Hlseq & Hiseq & _).
    destruct (checkin_cases dep env body w).
    + unfold ids_fresh. rewrite Hlogs, Htickets.
      repeat split; auto; intros x Hx;
        [specialize (Hlb x Hx)|specialize (Htb x Hx)]; lia.
    + destruct (tables_after_pass (now env) student_id _ _ _ _ Hacc Hpass) as [Hlogs Htk].
      destruct (seqs_after_pass (now env) student_id _ _
                  (default 0 (c_tab_switches body)) _ Hacc) as [Hs1 Hs2].
      unfold ids_fresh. rewrite Hdb, Hlogs, Htk, Hs1, Hs2, Hl, Hi, Hlseq, Hiseq.
      rewrite map_app. cbn. rewrite Hlseq. repeat split; auto.
      * apply nodup_snoc; [exact Hln|].
        intros y Hy. apply in_map_iff in Hy. destruct Hy as (l & <- & Hy). auto.
      * intros l Hin. apply in_app_or in Hin. destruct Hin as [Hin|[<-|[]]].
        -- specialize (Hlb l Hin). lia.
        -- cbn. lia.
    + destruct (tables_after_fail (now env) student_id _ _ _ _ Hacc Hpass) as [Hlogs Htk].
      destruct (seqs_after_fail (now env) student_id _ _
                  (default 0 (c_tab_switches body)) _ Hacc) as [Hs1 Hs2].
      unfold ids_fresh. rewrite Hdb, Hlogs, Htk, Hs1, Hs2, Hl, Hi, Hlseq, Hiseq.
      rewrite !map_app. cbn. rewrite Hlseq, Hiseq. repeat split.
      * apply nodup_snoc; [exact Hln|].
        intros y Hy. apply in_map_iff in Hy. destruct Hy as (l & <- & Hy). auto.
      * intros l Hin. apply in_app_or in Hin. destruct Hin as [Hin|[<-|[]]].
        -- specialize (Hlb l Hin). lia.
        -- cbn. lia.
      * apply nodup_snoc; [exact Htn|].
        intros y Hy. apply in_map_iff in Hy. destruct Hy as (l & <- & Hy). auto.
      * intros l Hin. apply in_app_or in Hin. destruct Hin as [Hin|[<-|[]]].
        -- specialize (Htb l Hin). lia.
        -- cbn. lia.
  - destruct (assign_cases dep env body w)
      as [-> | (sid & task & _ & ->)]; [repeat split; auto|].
    unfold ids_fresh.
    rewrite (proj1 (tables_after_assign _ _ _ _ _ _)),
            (proj2 (tables_after_assign _ _ _ _ _ _)).
    assert (Hmap : map i_id
              (map (fun i => if Sql.intervention_matches sid
                                  (a_intervention_id body) i
                             then Sql.set_assigned task (a_mentor_email body)
                                    (now env) i
                             else i) (interventions (db w)))
            = map i_id (interventions (db w))).
    { rewrite map_map. apply map_ext. intros i.
      destruct (Sql.intervention_matches _ _ i); reflexivity. }
    rewrite Hmap. repeat split; auto.
    intros t Hin. apply in_map_iff in Hin. destruct Hin as (i & <- & Hin).
    specialize (Htb i Hin).
    destruct (Sql.intervention_matches _ _ i); cbn; exact Htb.
  - destruct (complete_cases dep env body w)
      as [-> | (sid & _ & ->)]; [repeat split; auto|].
    unfold ids_fresh.
    rewrite (proj1 (tables_after_complete _ _ _ _)),
            (proj2 (tables_after_complete _ _ _ _)).
    assert (Hmap : map i_id
              (map (fun i => if Sql.intervention_matches sid
                                  (r_intervention_id body) i
                             then Sql.set_completed (now env) i
                             else i) (interventions (db w)))
            = map i_id (interventions (db w))).
    { rewrite map_map. apply map_ext. intros i.
      destruct (Sql.intervention_matches _ _ i); reflexivity. }
    rewrite Hmap. repeat split; auto.
    intros t Hin. apply in_map_iff in Hin. destruct Hin as (i & <- & Hin).
    specialize (Htb i Hin).
    destruct (Sql.intervention_matches _ _ i); cbn; exact Htb.
Qed.

(** An invariant of the store that holds initially and is kept by every
    operation holds in every reachable state. *)
Lemma reachable_ind (P : Database -> Prop) (dep : Deployment) :
  (forall checked, P (db (initial_world dep checked))) ->
  (forall env op w, P (db w) -> P (db (snd (handle dep env op w)))) ->
  forall w, reachable dep w -> P (db w).
Proof.
  intros Hinit Hstep w (checked & reqs & ->).
  generalize (Hinit checked). generalize (initial_world dep checked).
  induction reqs as [|[env op] reqs IH]; intros w0 H0; cbn; auto.
Qed.

(** *** Tickets are kept; their identity fields are never assigned *)

Lemma same_ticket_refl (t : Intervention) : same_ticket t t.
Proof. repeat split. Qed.

Lemma same_ticket_trans (t1 t2 t3 : Intervention) :
  same_ticket t1 t2 -> same_ticket t2 t3 -> same_ticket t1 t3.
Proof.
  unfold same_ticket. intros (A1 & A2 & A3 & A4 & A5) (B1 & B2 & B3 & B4 & B5).
  repeat split; congruence.
Qed.

Lemma ticket_kept_step (dep : Deployment) (env : Env) (op : Operation)
    (w : World) (t : Intervention) :
  In t (interventions (db w)) ->
  exists t', In t' (interventions (db (snd (handle dep env op w)))) /\
             same_ticket t t'.
Proof.
  intros Hin. destruct op as [body|body|body].
  - destruct (verdict (fst (handle dep env (SubmitCheckIn body) w)))
      as [[|]|] eqn:Hv.
    + exists t. rewrite tickets_after_checkin by congruence.
      split; [exact Hin|apply same_ticket_refl].
    + destruct (tickets_after_failed_checkin dep env body w Hv)
        as (sid & _ & -> & _).
      exists t. split; [apply in_or_app; left; exact Hin|apply same_ticket_refl].
    + exists t. rewrite tickets_after_checkin by congruence.
      split; [exact Hin|apply same_ticket_refl].
  - destruct (assign_cases dep env body w)
      as [-> | (sid & task & _ & ->)];
      [exists t; split; [exact Hin|apply same_ticket_refl]|].
    rewrite (proj1 (tables_after_assign _ _ _ _ _ _)).
    eexists. split; [apply in_map; exact Hin|].
    destruct (Sql.intervention_matches _ _ t); repeat split.
  - destruct (complete_cases dep env body w)
      as [-> | (sid & _ & ->)];
      [exists t; split; [exact Hin|apply same_ticket_refl]|].
    rewrite (proj1 (tables_after_complete _ _ _ _)).
    eexists. split; [apply in_map; exact Hin|].
    destruct (Sql.intervention_matches _ _ t); repeat split.
Qed.

(** *** Every ticket has its failing log *)

Lemma tickets_triggered_step (dep : Deployment) (env : Env) (op : Operation)
    (w : World) :
  tickets_triggered (db w) ->
  tickets_triggered (db (snd (handle dep env op w))).
Proof.
  intros Hinv t Hin.
  destruct (logs_append_only dep env op w) as [more Hmore].
  assert (Hold : forall t0, In t0 (interventions (db w)) ->
            exists l, In l (daily_logs (db (snd (handle dep env op w)))) /\
                      i_trigger_log_id t0 = Some (l_id l) /\
                      l_student_id l = i_student_id t0 /\ l_passed l = false).
  { intros t0 H0. destruct (Hinv t0 H0) as (l & Hl & Hrest).
    exists l. split; [rewrite Hmore; apply in_or_app; left; exact Hl|exact Hrest]. }
  destruct op as [body|body|body].
  - destruct (verdict (fst (handle dep env (SubmitCheckIn body) w)))
      as [[|]|] eqn:Hv.
    + rewrite tickets_after_checkin in Hin by congruence. auto.
    + destruct (tables_after_init dep (now env) (db w)) as (Hl & Hi & Hls & _).
      destruct (checkin_cases dep env body w);
        try (rewrite Hr in Hv; discriminate).
      destruct (tables_after_fail (now env) student_id _ _ _ _ Hacc Hpass)
        as [Hlogs Htk].
      rewrite Hdb, Htk, Hi in Hin. apply in_app_or in Hin.
      destruct Hin as [Hin|[<-|[]]].
      * auto.
      * exists (new_log (now env) student_id q f
                  (default 0 (c_tab_switches body))
                  (init_db dep (now env) (db w))).
        rewrite Hdb, Hlogs. split; [apply in_or_app; right; left; reflexivity|].
        cbn. auto.
    + rewrite tickets_after_checkin in Hin by congruence. auto.
  - destruct (assign_cases dep env body w)
      as [Hw | (sid & task & _ & Hdb)].
    + rewrite Hw in Hin. auto.
    + rewrite Hdb, (proj1 (tables_after_assign _ _ _ _ _ _)) in Hin.
      apply in_map_iff in Hin. destruct Hin as (i & <- & Hin).
      destruct (Hold i Hin) as (l & Hl & H1 & H2 & H3).
      exists l. destruct (Sql.intervention_matches _ _ i); cbn; auto.
  - destruct (complete_cases dep env body w)
      as [Hw | (sid & _ & Hdb)].
    + rewrite Hw in Hin. auto.
    + rewrite Hdb, (proj1 (tables_after_complete _ _ _ _)) in Hin.
      apply in_map_iff in Hin. destruct Hin as (i & <- & Hin).
      destruct (Hold i Hin) as (l & Hl & H1 & H2 & H3).
      exists l. destruct (Sql.intervention_matches _ _ i); cbn; auto.
Qed.

(** *** A locked student has a pending ticket *)

Lemma status_init_cases (dep : Deployment) (now : Z) (sid : string)
    (d : Database) :
  student_status sid (init_db dep now d) = student_status sid d \/
  student_status sid (init_db dep now d) = Some active.
Proof.
  destruct dep; [left; reflexivity|].
  unfold student_status, init_db, Sql.insert_sample_student.
  cbn [snd students].
  destruct (existsb _ _); [left; reflexivity|].
  rewrite filter_app.
  destruct (filter _ (students d)); [|left; reflexivity].
  cbn [filter app s_student_id].
  destruct (String.eqb "123" sid); [right|left]; reflexivity.
Qed.

Lemma unmatched_other_owner (student_id : string) (id : option Z)
    (t : Intervention) :
  i_student_id t <> student_id ->
  Sql.intervention_matches student_id id t = false.
Proof.
  intros Hne. destruct id as [id|]; [|reflexivity]. cbn.
  apply String.eqb_neq in Hne. rewrite Hne. reflexivity.
Qed.

Lemma locked_has_ticket_step (dep : Deployment) (env : Env) (op : Operation)
    (w : World) :
  locked_has_ticket (db w) ->
  locked_has_ticket (db (snd (handle dep env op w))).
Proof.
  intros Hinv x Hx. destruct op as [body|body|body].
  - destruct (tables_after_init dep (now env) (db w)) as (_ & Hi & _).
    assert (Hinit : student_status x (init_db dep (now env) (db w))
                    = Some needs_intervention ->
                    student_status x (db w) = Some needs_intervention).
    { intros H. destruct (status_init_cases dep (now env) x (db w)) as [E|E];
        congruence. }
    destruct (checkin_cases dep env body w).
    + rewrite Htickets. apply Hinv, Hinit. rewrite <- Hx.
      unfold student_status. rewrite Hstudents. reflexivity.
    + rewrite Hdb, status_after_pass in Hx.
      rewrite Hdb, (proj2 (tables_after_pass (now env) student_id _ _ _ _
                             Hacc Hpass)), Hi.
      destruct (String.eqb x student_id).
      * destruct (student_status x _); discriminate.
      * apply Hinv, Hinit, Hx.
    + rewrite Hdb, status_after_fail in Hx.
      rewrite Hdb, (proj2 (tables_after_fail (now env) student_id _ _ _ _
                             Hacc Hpass)), Hi.
      destruct (String.eqb x student_id) eqn:E.
      * apply String.eqb_eq in E. subst x.
        exists (new_ticket (now env) student_id (init_db dep (now env) (db w))).
        split; [apply in_or_app; right; left; reflexivity|]. split; reflexivity.
      * destruct (Hinv x (Hinit Hx)) as (t & Hin & Ht).
        exists t. split; [apply in_or_app; left; exact Hin|exact Ht].
  - destruct (assign_cases dep env body w)
      as [Hw | (sid & task & _ & Hdb)]; [rewrite Hw in *; auto|].
    rewrite Hdb, status_after_assign in Hx.
    rewrite Hdb, (proj1 (tables_after_assign _ _ _ _ _ _)).
    destruct (String.eqb x sid) eqn:E.
    + destruct (student_status x (db w)); discriminate.
    + destruct (Hinv x Hx) as (t & Hin & Ho & Hp).
      exists t. split; [|auto]. apply in_map_unmatched; [exact Hin|].
      apply unmatched_other_owner. apply String.eqb_neq in E. congruence.
  - destruct (complete_cases dep env body w)
      as [Hw | (sid & _ & Hdb)]; [rewrite Hw in *; auto|].
    rewrite Hdb, status_after_complete in Hx.
    rewrite Hdb, (proj1 (tables_after_complete _ _ _ _)).
    destruct (String.eqb x sid) eqn:E.
    + destruct (student_status x (db w)); discriminate.
    + destruct (Hinv x Hx) as (t & Hin & Ho & Hp).
      exists t. split; [|auto]. apply in_map_unmatched; [exact Hin|].
      apply unmatched_other_owner. apply String.eqb_neq in E. congruence.
Qed.

(** *** Students are kept *)

Lemma student_kept_step (dep : Deployment) (env : Env) (op : Operation)
    (w : World) (sid : string) :
  student_status sid (db w) <> None ->
  student_status sid (db (snd (handle dep env op w))) <> None.
Proof.
  intros Hex.
  assert (Hmap : forall st : StudentStatus,
            option_map (fun _ : StudentStatus => st)
              (student_status sid (db w)) <> None).
  { intros st. destruct (student_status sid (db w)); [discriminate|congruence]. }
  destruct op as [body|body|body].
  - pose proof (status_after_init dep (now env) sid (db w) Hex) as Hinit.
    destruct (checkin_cases dep env body w).
    + rewrite <- Hinit in Hex. unfold student_status in *.
      rewrite Hstudents. exact Hex.
    + rewrite Hdb, status_after_pass, Hinit.
      destruct (String.eqb sid student_id); auto.
    + rewrite Hdb, status_after_fail, Hinit.
      destruct (String.eqb sid student_id); auto.
  - destruct (assign_cases dep env body w)
      as [-> | (student_id & task & _ & ->)]; [exact Hex|].
    rewrite status_after_assign. destruct (String.eqb sid student_id); auto.
  - destruct (complete_cases dep env body w)
      as [-> | (student_id & _ & ->)]; [exact Hex|].
    rewrite status_after_complete. destruct (String.eqb sid student_id); auto.
Qed.

(** *** One ticket through its cycle *)

Lemma nodup_map_inj (l : list Intervention) (a b : Intervention) :
  NoDup (map i_id l) -> In a l -> In b l -> i_id a = i_id b -> a = b.
Proof.
  induction l as [|x l IH]; cbn; [tauto|].
  intros Hnd Ha Hb Heq. inversion Hnd as [|? ? Hnotin Hnd']; subst.
  destruct Ha as [->|Ha], Hb as [->|Hb]; auto.
  - exfalso. apply Hnotin. rewrite Heq. apply in_map. exact Hb.
  - exfalso. apply Hnotin. rewrite <- Heq. apply in_map. exact Ha.
Qed.


Lemma find_last (student_id : string) (id : Z) (old : list Intervention)
    (t : Intervention) :
  (forall y, In y old -> i_id y < id) ->
  i_student_id t = student_id -> i_id t = id ->
  find (Sql.intervention_matches student_id (Some id)) (old ++ [t]) = Some t.
Proof.
  intros Hold Ho Hi. induction old as [|y old IH]; cbn.
  - rewrite Ho, Hi, String.eqb_refl, Z.eqb_refl. reflexivity.
  - assert (E : (i_id y =? id) = false).
    { apply Z.eqb_neq. specialize (Hold y (or_introl eq_refl)). lia. }
    rewrite E, andb_false_r. apply IH. intros z Hz. apply Hold. right. exact Hz.
Qed.

(** *** A student id that has no row *)


(* ================================================================== *)
(** ** Further properties of the handlers *)

(** X1: GET /api/student/:studentId writes nothing.  On the Express server
    the world after the request is the world before it; the serverless
    handler only runs initDatabase.  Logs, tickets, sockets, the trace and
    the status of every existing student are as before, and the answer is
    404 exactly when no student row has the identity. *)
Theorem student_read_only (dep : Deployment) (env : Env) (studentId : string)
    (w : World) :
  db (snd (read_student dep env studentId w)) = init_db dep (now env) (db w) /\
  connectedStudents (snd (read_student dep env studentId w))
    = connectedStudents w /\
  trace (snd (read_student dep env studentId w)) = trace w /\
  daily_logs (db (snd (read_student dep env studentId w)))
    = daily_logs (db w) /\
  interventions (db (snd (read_student dep env studentId w)))
    = interventions (db w) /\
  (dep = Express -> snd (read_student dep env studentId w) = w) /\
  (forall sid, student_status sid (db w) <> None ->
     student_status sid (db (snd (read_student dep env studentId w)))
     = student_status sid (db w)) /\
  (read_code (fst (read_student dep env studentId w)) = 404 <->
   student_status studentId (init_db dep (now env) (db w)) = None) /\
  (read_code (fst (read_student dep env studentId w)) = 200 \/
   read_code (fst (read_student dep env studentId w)) = 404).
Proof.
  rewrite read_student_result; cbn.
  destruct (tables_after_init dep (now env) (db w)) as (Hl & Hi & _).
  do 3 (split; [reflexivity|]). split; [exact Hl|]. split; [exact Hi|].
  split; [intros ->; destruct w; reflexivity|].
  split; [intros sid Hex; apply status_after_init; exact Hex|].
  unfold student_status.
  destruct (filter _ (students (init_db dep (now env) (db w)))); cbn.
  - split; [tauto|auto].
  - split; [split; [lia|discriminate]|auto].
Qed.

(** X1 on the world in which the sample student has failed a check-in. *)
Lemma student_read_only_witness :
  snd (read_student Express late_env "123"
         (run Express [(sample_env, SubmitCheckIn failing_body)]
            (initial_world Express true)))
  = run Express [(sample_env, SubmitCheckIn failing_body)]
      (initial_world Express true) /\
  student_status "123"
    (db (snd (read_student Serverless late_env "456"
                (run Serverless [(sample_env, SubmitCheckIn failing_body)]
                   (initial_world Serverless true)))))
  = student_status "123"
      (db (run Serverless [(sample_env, SubmitCheckIn failing_body)]
             (initial_world Serverless true))).
Proof.
  split.
  - apply (student_read_only Express late_env "123"). reflexivity.
  - apply (student_read_only Serverless late_env "456").
    vm_compute. discriminate.
Defined.

(** X2: the intervention that GET /api/student/:studentId returns.  It is
    non-null only for a student who is needs_intervention or remedial; it is
    then a 'pending' or 'assigned' ticket of that student, and no open ticket
    of the student was created later; it is null for such a student exactly
    when the student has no open ticket. *)
Theorem student_read_ticket (dep : Deployment) (env : Env) (studentId : string)
    (w : World) (student : Student) (ticket : option Intervention)
    (timestamp : Z) :
  fst (read_student dep env studentId w) = StudentOk student ticket timestamp ->
  s_student_id student = studentId /\
  student_status studentId (init_db dep (now env) (db w))
    = Some (s_status student) /\
  timestamp = now env /\
  match ticket with
  | Some t =>
      is_locked (s_status student) = true /\
      In t (interventions (db w)) /\
      i_student_id t = studentId /\ is_open t = true /\
      forall t', In t' (interventions (db w)) ->
                 i_student_id t' = studentId -> is_open t' = true ->
                 i_created_at t' <= i_created_at t
  | None =>
      is_locked (s_status student) = false \/ open_tickets studentId (db w) = []
  end.
Proof.
  rewrite read_student_result; cbn. unfold student_status.
  destruct (filter _ (students (init_db dep (now env) (db w))))
    as [|s l] eqn:Ef; [discriminate|].
  intros [= <- <- <-].
  assert (Hs : In s (filter (fun s => String.eqb (s_student_id s) studentId)
                       (students (init_db dep (now env) (db w)))))
    by (rewrite Ef; left; reflexivity).
  apply filter_In in Hs. destruct Hs as [_ Hs]. apply String.eqb_eq in Hs.
  do 3 (split; [auto|]).
  destruct (is_locked (s_status s)); [|left; reflexivity].
  pose proof (newest_row _ i_created_at (open_tickets studentId (db w))) as Hn.
  destruct (hd_error _) as [t|].
  - destruct Hn as [Hin Hmax]. unfold open_tickets in Hin.
    apply filter_In in Hin. destruct Hin as [Hin Hp].
    apply andb_true_iff in Hp. destruct Hp as [Ho Hop].
    apply String.eqb_eq in Ho.
    do 4 (split; [auto|]). intros t' Hin' Ho' Hop'. apply Hmax.
    unfold open_tickets. apply filter_In. split; [exact Hin'|].
    rewrite Ho', String.eqb_refl, Hop'. reflexivity.
  - right. exact Hn.
Qed.

(** X2 on the world in which the sample student has failed two check-ins, at
    times 1000 and 1000000. *)
Lemma student_read_ticket_witness :
  exists student t,
    fst (read_student Express late_env "123"
           (run Express [(sample_env, SubmitCheckIn failing_body);
                         (late_env, SubmitCheckIn failing_body)]
              (initial_world Express true)))
      = StudentOk student (Some t) 1000000 /\
    i_id t = 2 /\ is_open t = true /\ i_student_id t = "123".
Proof.
  eexists. eexists. split; [reflexivity|].
  split; [reflexivity|].
  destruct (student_read_ticket Express late_env "123"
              (run Express [(sample_env, SubmitCheckIn failing_body);
                            (late_env, SubmitCheckIn failing_body)]
                 (initial_world Express true)) _ _ _ eq_refl)
    as (_ & _ & _ & _ & _ & Ho & Hop & _).
  split; [exact Hop|exact Ho].
Defined.

(** X3: the serverless handlers insert the sample student '123' (unless
    present) before they look anything up, so for that identity GET
    /api/student/123 always answers 200 with the student and a check-in is
    never answered 404, whatever the store was. *)
Theorem sample_student_always_found (env : Env) (w : World) :
  (exists student ticket,
     fst (read_student Serverless env "123" w)
       = StudentOk student ticket (now env) /\
     s_student_id student = "123") /\
  (forall body,
     c_student_id body = Some "123" ->
     http_code (fst (handle Serverless env (SubmitCheckIn body) w)) <> 404).
Proof.
  split.
  - rewrite read_student_result; cbn [fst].
    pose proof (sample_present (now env) (db w)) as Hp.
    destruct (filter _ (students (init_db Serverless (now env) (db w))))
      as [|s l] eqn:Ef; [congruence|].
    eexists. eexists. split; [reflexivity|].
    assert (Hs : In s (filter (fun s => String.eqb (s_student_id s) "123")
                         (students (init_db Serverless (now env) (db w)))))
      by (rewrite Ef; left; reflexivity).
    apply filter_In in Hs. destruct Hs as [_ Hs]. apply String.eqb_eq in Hs.
    exact Hs.
  - intros body Hsid.
    destruct (checkin_cases Serverless env body w)
      as [code msg Hr Hcode _ _ _ _ | | ]; try (rewrite Hr; cbn; lia).
    pose proof (sample_present (now env) (db w)) as Hp.
    destruct body as [sid q f t], w as [d m tr]; cbn in Hsid; subst sid.
    revert Hr Hp. unfold init_db, Sql.insert_sample_student.
    unfold_handlers; cbn.
    destruct q as [q|]; [|intros; cbn in *; congruence].
    destruct f as [f|]; [|intros; cbn in *; congruence].
    cbn. destruct (existsb _ (students d)); cbn;
      (destruct (filter _ _) as [|s l]; [intros _ Hp; congruence|]);
      cbn; branches; intros Hr _; inversion Hr; subst; cbn; lia.
Qed.

(** X3 for a check-in of the sample student on the bare store. *)
Lemma sample_student_always_found_witness :
  http_code (fst (handle Serverless sample_env (SubmitCheckIn passing_body)
                    (initial_world Serverless false))) <> 404.
Proof.
  apply (proj2 (sample_student_always_found sample_env
                  (initial_world Serverless false)) passing_body).
  reflexivity.
Defined.



(** X5: GET /api/student/:studentId/history always answers 200 and leaves the
    world as it is.  It returns at most 30 logs and at most 10 tickets, all
    of the student, newest first; what it leaves out is never newer than
    what it returns, and nothing is left out when the student has at most 30
    logs (10 tickets).  An unknown student gets two empty lists, not 404. *)
Theorem history_newest_first (env : Env) (studentId : string) (w : World) :
  exists logs tickets more_logs more_tickets,
    ServerRead.get_history env studentId w = (HistoryOk logs tickets, w) /\
    (List.length logs <= 30)%nat /\ (List.length tickets <= 10)%nat /\
    Permutation (logs ++ more_logs)
      (filter (fun l => String.eqb (l_student_id l) studentId)
              (daily_logs (db w))) /\
    Permutation (tickets ++ more_tickets) (tickets_of studentId (db w)) /\
    StronglySorted (newest_first l_created_at) logs /\
    StronglySorted (newest_first i_created_at) tickets /\
    (forall l l', In l logs -> In l' more_logs ->
       l_created_at l' <= l_created_at l) /\
    (forall t t', In t tickets -> In t' more_tickets ->
       i_created_at t' <= i_created_at t) /\
    List.length more_logs
      = (List.length (filter (fun l => String.eqb (l_student_id l) studentId)
                        (daily_logs (db w))) - 30)%nat /\
    List.length more_tickets
      = (List.length (tickets_of studentId (db w)) - 10)%nat.
Proof.
  set (ls := SqlRead.order_by_desc l_created_at
               (filter (fun l => String.eqb (l_student_id l) studentId)
                       (daily_logs (db w)))).
  set (ts := SqlRead.order_by_desc i_created_at (tickets_of studentId (db w))).
  exists (firstn 30 ls), (firstn 10 ts), (skipn 30 ls), (skipn 10 ts).
  split; [destruct w; reflexivity|].
  split; [apply firstn_le_length|]. split; [apply firstn_le_length|].
  split; [rewrite firstn_skipn; apply order_by_desc_perm|].
  split; [rewrite firstn_skipn; apply order_by_desc_perm|].
  split; [apply sorted_firstn, order_by_desc_sorted|].
  split; [apply sorted_firstn, order_by_desc_sorted|].
  split.
  { intros l l' Hl Hl'.
    exact (sorted_limit _ l_created_at 30 ls l l'
             (order_by_desc_sorted _ _ _) Hl Hl'). }
  split.
  { intros t t' Ht Ht'.
    exact (sorted_limit _ i_created_at 10 ts t t'
             (order_by_desc_sorted _ _ _) Ht Ht'). }
  split.
  - rewrite length_skipn. unfold ls.
    rewrite (Permutation_length (order_by_desc_perm _ _ _)). reflexivity.
  - rewrite length_skipn. unfold ts.
    rewrite (Permutation_length (order_by_desc_perm _ _ _)). reflexivity.
Qed.

(** X5 on the sample student after two check-ins. *)
Lemma history_newest_first_witness :
  exists logs tickets,
    ServerRead.get_history late_env "123"
      (run Express [(sample_env, SubmitCheckIn failing_body);
                    (late_env, SubmitCheckIn passing_body)]
         (initial_world Express true))
    = (HistoryOk logs tickets,
       run Express [(sample_env, SubmitCheckIn failing_body);
                    (late_env, SubmitCheckIn passing_body)]
         (initial_world Express true)) /\
    map l_created_at logs = [1000000; 1000] /\
    map i_id tickets = [1].
Proof.
  destruct (history_newest_first late_env "123"
              (run Express [(sample_env, SubmitCheckIn failing_body);
                            (late_env, SubmitCheckIn passing_body)]
                 (initial_world Express true)))
    as (logs & tickets & ml & mt & Hr & _).
  exists logs, tickets. split; [exact Hr|].
  vm_compute in Hr. injection Hr as <- <-. split; reflexivity.
Defined.



(** X7: a check-in that is not answered 200 has no effect on the records:
    logs and tickets are as before, every existing student keeps its status,
    no webhook is called and no event is pushed. *)
Theorem rejected_checkin (dep : Deployment) (env : Env) (body : CheckinBody)
    (w : World) :
  http_code (fst (handle dep env (SubmitCheckIn body) w)) <> 200 ->
  daily_logs (db (snd (handle dep env (SubmitCheckIn body) w)))
    = daily_logs (db w) /\
  interventions (db (snd (handle dep env (SubmitCheckIn body) w)))
    = interventions (db w) /\
  (forall sid, student_status sid (db w) <> None ->
     student_status sid (db (snd (handle dep env (SubmitCheckIn body) w)))
     = student_status sid (db w)) /\
  escalations (trace (snd (handle dep env (SubmitCheckIn body) w)))
    = escalations (trace w) /\
  deliveries (trace (snd (handle dep env (SubmitCheckIn body) w)))
    = deliveries (trace w).
Proof.
  intros Hcode.
  pose proof (checkin_deliveries dep env body w) as Hd.
  destruct (checkin_cases dep env body w)
    as [code msg Hr Hc Hstudents Hlogs Htickets Hposts | | ];
    try (rewrite Hr in Hcode; cbn in Hcode; congruence).
  split; [exact Hlogs|]. split; [exact Htickets|]. split.
  - intros sid Hex. rewrite <- (status_after_init dep (now env) sid (db w) Hex).
    unfold student_status. rewrite Hstudents. reflexivity.
  - split; [exact Hposts|]. rewrite Hd.
    destruct dep; [rewrite Hr|]; cbn; apply app_nil_r.
Qed.

(** X7 at a check-in of an unknown student (answered 404). *)
Lemma rejected_checkin_witness :
  daily_logs (db (snd (handle Express sample_env (SubmitCheckIn stranger_body)
                         (initial_world Express true)))) = [] /\
  interventions (db (snd (handle Express sample_env (SubmitCheckIn stranger_body)
                            (initial_world Express true)))) = [].
Proof.
  destruct (rejected_checkin Express sample_env stranger_body
              (initial_world Express true) ltac:(vm_compute; discriminate))
    as (Hl & Ht & _).
  split; [exact Hl|exact Ht].
Defined.

(** X8: the rejections of the Express check-in, in the order the route tests
    them and with their messages: 400 when student_id is missing or empty or
    a figure is absent; else 400 when quiz_score is outside [0, 10]; else 400
    when focus_minutes is negative; else 404 when no student has the
    identity.  In each case the world is left exactly as it was. *)
Theorem express_checkin_errors (env : Env) (body : CheckinBody) (w : World) :
  (missing (c_student_id body) = true \/ c_quiz_score body = None \/
   c_focus_minutes body = None ->
   handle Express env (SubmitCheckIn body) w
   = (Error 400 "Missing required fields: student_id, quiz_score, focus_minutes",
      w)) /\
  (forall student_id q f,
     c_student_id body = Some student_id ->
     truthy student_id = true ->
     c_quiz_score body = Some q ->
     c_focus_minutes body = Some f ->
     (q < 0 \/ 10 < q ->
      handle Express env (SubmitCheckIn body) w
      = (Error 400 "quiz_score must be between 0 and 10", w)) /\
     (0 <= q <= 10 -> f < 0 ->
      handle Express env (SubmitCheckIn body) w
      = (Error 400 "focus_minutes must be non-negative", w)) /\
     (0 <= q <= 10 -> 0 <= f ->
      student_status student_id (db w) = None ->
      handle Express env (SubmitCheckIn body) w
      = (Error 404 "Student not found", w))).
Proof.
  destruct body as [sid q f t], w as [d m tr]; cbn. split.
  - intros H. unfold_handlers; cbn.
    destruct sid as [sid|]; [|reflexivity].
    destruct q as [q|]; [|reflexivity].
    destruct f as [f|]; [|reflexivity].
    destruct H as [H|[H|H]]; try discriminate. cbn in H. rewrite H.
    reflexivity.
  - intros student_id q0 f0 -> Ht -> ->.
    unfold_handlers; cbn. rewrite Ht; cbn.
    split; [|split].
    + intros Hq.
      assert (E : (q0 <? 0) || (q0 >? 10) = true).
      { apply orb_true_iff. rewrite Z.ltb_lt, Z.gtb_ltb, Z.ltb_lt. lia. }
      rewrite E. reflexivity.
    + intros Hq Hf.
      assert (E : (q0 <? 0) || (q0 >? 10) = false).
      { apply orb_false_iff. rewrite Z.ltb_ge, Z.gtb_ltb, Z.ltb_ge. lia. }
      rewrite E. apply Z.ltb_lt in Hf. rewrite Hf. reflexivity.
    + intros Hq Hf Hnone.
      assert (E : (q0 <? 0) || (q0 >? 10) = false).
      { apply orb_false_iff. rewrite Z.ltb_ge, Z.gtb_ltb, Z.ltb_ge. lia. }
      rewrite E. apply Z.ltb_ge in Hf. rewrite Hf.
      unfold student_status in Hnone; cbn in Hnone. cbn.
      destruct (filter _ (students d)); [reflexivity|discriminate].
Qed.

(** X8 at quiz_score 11 and at an unknown student. *)
Lemma express_checkin_errors_witness :
  handle Express sample_env
    (SubmitCheckIn (mkCheckinBody (Some "123") (Some 11) (Some 90) None))
    (initial_world Express true)
  = (Error 400 "quiz_score must be between 0 and 10",
     initial_world Express true) /\
  handle Express sample_env (SubmitCheckIn stranger_body)
    (initial_world Express true)
  = (Error 404 "Student not found", initial_world Express true).
Proof.
  split.
  - apply (proj2 (express_checkin_errors sample_env
                    (mkCheckinBody (Some "123") (Some 11) (Some 90) None)
                    (initial_world Express true))
             "123" 11 90 eq_refl eq_refl eq_refl eq_refl).
    lia.
  - apply (proj2 (express_checkin_errors sample_env stranger_body
                    (initial_world Express true))
             "456" 9 90 eq_refl eq_refl eq_refl eq_refl);
      [lia|lia|reflexivity].
Defined.



(** X10: the effects of a failing check-in on the Express server, in order:
    first the POST to the webhook (when an address is configured), then the
    console.error of the catch block (when the POST rejects), and only then
    the status_update {needs_intervention} pushed to the student's socket
    (when one is mapped).  The push is made whatever the webhook answered. *)
Theorem express_fail_effects (env : Env) (body : CheckinBody) (w : World)
    (student_id : string) (q f : Z) :
  c_student_id body = Some student_id ->
  c_quiz_score body = Some q ->
  c_focus_minutes body = Some f ->
  verdict (fst (handle Express env (SubmitCheckIn body) w)) = Some false ->
  exists student,
    hd_error (filter (fun s => String.eqb (s_student_id s) student_id)
                (students (db w))) = Some student /\
    trace (snd (handle Express env (SubmitCheckIn body) w))
    = trace w
      ++ webhook_effects env
           (mkWebhookPayload student_id (s_name student) (s_email student)
              q f (default 0 (c_tab_switches body))
              (interventions_id_seq (db w)) (now env))
      ++ emit_all (push_to (connectedStudents w) student_id "status_update"
                     (StatusUpdate needs_intervention)).
Proof.
  intros Hsid Hq Hf Hv.
  destruct (checkin_cases Express env body w)
    as [code msg Hr | sid' q' f' ? ? ? ? ? Hr
       | sid' q' f' Hsid' Hq' Hf' Hfail Hacc Hr Hdb student Hstudent _];
    try (rewrite Hr in Hv; discriminate).
  assert (sid' = student_id) by congruence. subst sid'.
  cbn [init_db] in Hstudent.
  exists student. split; [exact Hstudent|].
  destruct (filter _ (students (db w))) as [|s rest] eqn:Ef; [discriminate|].
  cbn in Hstudent. injection Hstudent as ->.
  exact (express_fail_trace env body w student rest student_id q f
           Hsid Hq Hf Hv Ef).
Qed.

(** X10 for the sample student, connected, with the gateway down. *)
Lemma express_fail_effects_witness :
  exists payload,
    trace (snd (handle Express env_gateway_down (SubmitCheckIn failing_body)
                  (mkWorld (db (initial_world Express true))
                     [("123", "sockA")] [])))
    = [HttpPost "https://n8n.example/webhook" payload;
       ConsoleError "Request failed";
       Emit "sockA" "status_update" (StatusUpdate needs_intervention)].
Proof.
  destruct (express_fail_effects env_gateway_down failing_body
              (mkWorld (db (initial_world Express true)) [("123", "sockA")] [])
              "123" 5 30 eq_refl eq_refl eq_refl eq_refl)
    as (student & _ & Htrace).
  eexists. rewrite Htrace. reflexivity.
Defined.

(** X11: the HTTP operations never register or unregister a socket: after
    any run of check-ins, assignments and completions connectedStudents is
    what it was. *)
Theorem http_keeps_sockets (dep : Deployment) (reqs : list (Env * Operation))
    (w : World) :
  connectedStudents (run dep reqs w) = connectedStudents w.
Proof.
  revert w. induction reqs as [|[env op] reqs IH]; intros w; cbn;
    [reflexivity|].
  rewrite IH. apply handle_registry.
Qed.

(** X12: no operation deletes a record.  After any run, every check-in log
    is where it was, unchanged; every ticket is still there with its id,
    owner, trigger log, creation time and deadline; every student still
    exists. *)
Theorem records_never_deleted (dep : Deployment)
    (reqs : list (Env * Operation)) (w : World) :
  (forall n l,
     nth_error (daily_logs (db w)) n = Some l ->
     nth_error (daily_logs (db (run dep reqs w))) n = Some l) /\
  (forall t,
     In t (interventions (db w)) ->
     exists t', In t' (interventions (db (run dep reqs w))) /\
                same_ticket t t') /\
  (forall sid,
     student_status sid (db w) <> None ->
     student_status sid (db (run dep reqs w)) <> None).
Proof.
  split; [|split].
  - intros n l Hn. destruct (logs_append_only_run dep reqs w) as [more ->].
    rewrite nth_error_app1; [exact Hn|].
    apply nth_error_Some. congruence.
  - revert w. induction reqs as [|[env op] reqs IH]; intros w t Hin; cbn.
    + exists t. split; [exact Hin|apply same_ticket_refl].
    + destruct (ticket_kept_step dep env op w t Hin) as (t1 & Hin1 & Hs1).
      destruct (IH _ t1 Hin1) as (t2 & Hin2 & Hs2).
      exists t2. split; [exact Hin2|]. eapply same_ticket_trans; eauto.
  - revert w. induction reqs as [|[env op] reqs IH]; intros w sid Hex; cbn.
    + exact Hex.
    + apply IH. apply student_kept_step. exact Hex.
Qed.

(** X12 on the ticket of the sample student, assigned and completed later. *)
Lemma records_never_deleted_witness :
  exists t',
    In t' (interventions
             (db (run Express [(late_env, AssignIntervention assign_body);
                               (late_env, CompleteRemedial complete_body)]
                    (run Express [(sample_env, SubmitCheckIn failing_body)]
                       (initial_world Express true))))) /\
    i_id t' = 1 /\ i_created_at t' = 1000 /\ i_expires_at t' = Some 44200.
Proof.
  destruct (proj1 (proj2 (records_never_deleted Express
              [(late_env, AssignIntervention assign_body);
               (late_env, CompleteRemedial complete_body)]
              (run Express [(sample_env, SubmitCheckIn failing_body)]
                 (initial_world Express true))))
              (mkIntervention 1 "123" (Some 1) None None pending None None
                 1000 (Some 44200))
              (or_introl eq_refl))
    as (t' & Hin & H1 & _ & _ & H4 & H5).
  exists t'. auto.
Defined.

(** X13: ids come from the sequences.  Every operation keeps log ids and
    ticket ids distinct and below the next value of their sequence, so in
    every reachable state an id names at most one ticket. *)
Theorem ids_always_fresh (dep : Deployment) :
  (forall env op w,
     ids_fresh (db w) -> ids_fresh (db (snd (handle dep env op w)))) /\
  (forall w, reachable dep w -> ids_fresh (db w)) /\
  (forall w t1 t2,
     reachable dep w ->
     In t1 (interventions (db w)) -> In t2 (interventions (db w)) ->
     i_id t1 = i_id t2 -> t1 = t2).
Proof.
  assert (Hreach : forall w, reachable dep w -> ids_fresh (db w)).
  { apply reachable_ind.
    - intros checked. destruct dep; cbn; repeat split;
        try constructor; intros ? [].
    - intros env op w. apply ids_fresh_step. }
  split; [intros env op w; apply ids_fresh_step|]. split; [exact Hreach|].
  intros w t1 t2 Hw H1 H2 Heq.
  destruct (Hreach w Hw) as (_ & _ & Hnd & _).
  eapply nodup_map_inj; eauto.
Qed.

(** X13 after two failing check-ins of the sample student. *)
Lemma ids_always_fresh_witness :
  ids_fresh
    (db (run Express [(sample_env, SubmitCheckIn failing_body);
                      (late_env, SubmitCheckIn failing_body)]
           (initial_world Express true))).
Proof.
  apply (proj1 (proj2 (ids_always_fresh Express))).
  exists true. eexists. reflexivity.
Defined.

(** X14: in every reachable state each ticket refers to a check-in log that
    exists, belongs to the ticket's student and has verdict false. *)
Theorem tickets_always_triggered (dep : Deployment) (w : World) :
  reachable dep w -> tickets_triggered (db w).
Proof.
  apply reachable_ind.
  - intros checked t Hin. destruct dep; destruct Hin.
  - intros env op w0. apply tickets_triggered_step.
Qed.

(** X14 after a failing check-in of the sample student. *)
Lemma tickets_always_triggered_witness :
  tickets_triggered
    (db (run Express [(sample_env, SubmitCheckIn failing_body)]
           (initial_world Express true))).
Proof.
  apply (tickets_always_triggered Express).
  exists true. eexists. reflexivity.
Defined.

(** X15: in every reachable state a student whose status is
    needs_intervention has a 'pending' ticket, so GET
    /api/student/:studentId answers such a student with a non-null, open
    intervention. *)
Theorem locked_student_sees_ticket (dep : Deployment) (w : World) :
  reachable dep w ->
  locked_has_ticket (db w) /\
  (forall env student_id,
     student_status student_id (db w) = Some needs_intervention ->
     exists student t,
       fst (read_student dep env student_id w)
         = StudentOk student (Some t) (now env) /\
       s_status student = needs_intervention /\
       i_student_id t = student_id /\ is_open t = true).
Proof.
  intros Hw.
  assert (Hinv : locked_has_ticket (db w)).
  { revert w Hw. apply reachable_ind.
    - intros checked sid Hs. destruct dep.
      + change (db (initial_world Express checked))
          with (init_db Serverless 0 (empty_database checked)) in Hs.
        destruct (status_init_cases Serverless 0 sid (empty_database checked))
          as [E|E]; rewrite E in Hs; discriminate.
      + discriminate.
    - intros env op w0. apply locked_has_ticket_step. }
  split; [exact Hinv|].
  intros env sid Hs.
  destruct (Hinv sid Hs) as (t0 & Hin0 & Ho0 & Hp0).
  assert (Hst : student_status sid (init_db dep (now env) (db w))
                = Some needs_intervention).
  { rewrite status_after_init; [exact Hs|congruence]. }
  rewrite read_student_result; cbn [fst].
  rewrite filter_owner_status in Hst.
  destruct (filter _ (students (init_db dep (now env) (db w))))
    as [|s l]; [discriminate|].
  cbn in Hst. injection Hst as Hst. rewrite Hst. cbn [is_locked].
  pose proof (newest_row _ i_created_at (open_tickets sid (db w))) as Hn.
  destruct (hd_error _) as [t|].
  - destruct Hn as [Hin _]. unfold open_tickets in Hin.
    apply filter_In in Hin. destruct Hin as [_ Hp].
    apply andb_true_iff in Hp. destruct Hp as [Ho Hop].
    apply String.eqb_eq in Ho.
    exists s, t. auto.
  - exfalso.
    assert (Hin : In t0 (open_tickets sid (db w))).
    { unfold open_tickets. apply filter_In. split; [exact Hin0|].
      rewrite Ho0, String.eqb_refl. unfold is_open. rewrite Hp0. reflexivity. }
    rewrite Hn in Hin. exact Hin.
Qed.

(** X15 for the sample student after a failing check-in. *)
Lemma locked_student_sees_ticket_witness :
  exists student t,
    fst (read_student Express late_env "123"
           (run Express [(sample_env, SubmitCheckIn failing_body)]
              (initial_world Express true)))
      = StudentOk student (Some t) 1000000 /\
    is_open t = true.
Proof.
  destruct (proj2 (locked_student_sees_ticket Express
                     (run Express [(sample_env, SubmitCheckIn failing_body)]
                        (initial_world Express true))
                     (ex_intro _ true (ex_intro _ _ eq_refl)))
              late_env "123" eq_refl)
    as (student & t & Hr & _ & _ & Ho).
  exists student, t. auto.
Defined.



(** X17: initDatabase of the serverless handlers can be run on every request:
    it makes sure the sample student '123' exists, never changes a row that
    is there (in particular not the sample student's status), leaves logs and
    tickets alone, and a second run changes no table. *)
Theorem init_database_keeps (env env2 : Env) (w : World) :
  student_status "123" (db (snd (Api.initDatabase env w))) <> None /\
  (exists more,
     students (db (snd (Api.initDatabase env w))) = students (db w) ++ more /\
     (student_status "123" (db w) <> None -> more = [])) /\
  (forall sid, student_status sid (db w) <> None ->
     student_status sid (db (snd (Api.initDatabase env w)))
     = student_status sid (db w)) /\
  daily_logs (db (snd (Api.initDatabase env w))) = daily_logs (db w) /\
  interventions (db (snd (Api.initDatabase env w))) = interventions (db w) /\
  trace (snd (Api.initDatabase env w)) = trace w /\
  students (db (snd (Api.initDatabase env2 (snd (Api.initDatabase env w)))))
    = students (db (snd (Api.initDatabase env w))).
Proof.
  assert (Hdb : forall e v, db (snd (Api.initDatabase e v))
                            = init_db Serverless (now e) (db v)).
  { intros e [d m tr]. reflexivity. }
  assert (Hpresent : forall e v,
            student_status "123" (db (snd (Api.initDatabase e v))) <> None).
  { intros e v. rewrite Hdb, filter_owner_status.
    pose proof (sample_present (now e) (db v)) as Hp.
    destruct (filter _ _); [congruence|discriminate]. }
  assert (Hex : forall d, existsb (fun s => String.eqb (s_student_id s) "123")
                            (students d) = true <->
                          student_status "123" d <> None).
  { intros d. unfold student_status. split.
    - intros E. apply existsb_exists in E. destruct E as (s & Hin & Hs).
      assert (Hf : In s (filter (fun s => String.eqb (s_student_id s) "123")
                           (students d))) by (apply filter_In; auto).
      destruct (filter _ (students d)); [destruct Hf|discriminate].
    - intros H. destruct (filter _ (students d)) as [|s l] eqn:Ef;
        [congruence|].
      assert (Hf : In s (filter (fun s => String.eqb (s_student_id s) "123")
                           (students d))) by (rewrite Ef; left; reflexivity).
      apply filter_In in Hf. apply existsb_exists. exists s. exact Hf. }
  split; [apply Hpresent|]. split.
  { rewrite Hdb. unfold init_db, Sql.insert_sample_student. cbn [snd students].
    destruct (existsb _ (students (db w))) eqn:E.
    - exists []. rewrite app_nil_r. auto.
    - eexists. split; [reflexivity|]. intros H. apply Hex in H. congruence. }
  split; [intros sid H; rewrite Hdb; apply status_after_init, H|].
  split; [rewrite Hdb; apply (tables_after_init Serverless)|].
  split; [rewrite Hdb; apply (tables_after_init Serverless)|].
  split; [destruct w; reflexivity|].
  rewrite (Hdb env2). unfold init_db at 1, Sql.insert_sample_student.
  cbn [snd students].
  rewrite (proj2 (Hex _) (Hpresent env w)). reflexivity.
Qed.

(** X17 on a store in which the sample student needs intervention. *)
Lemma init_database_keeps_witness :
  student_status "123"
    (db (snd (Api.initDatabase late_env
                (run Serverless [(sample_env, SubmitCheckIn failing_body)]
                   (initial_world Serverless false)))))
  = Some needs_intervention.
Proof.
  rewrite (proj1 (proj2 (proj2 (init_database_keeps late_env late_env
             (run Serverless [(sample_env, SubmitCheckIn failing_body)]
                (initial_world Serverless false)))))
             "123" ltac:(vm_compute; discriminate)).
  reflexivity.
Defined.






